(** * tldwatch: fetch the IANA list of top-level domains, store the unseen
    ones in SQLite and print them as JSON.

    A shallow embedding of [loadTLDs], [run], [main] (main.go) and [getenv]
    (env.go).  Go strings are byte strings ([string]); an [error] is
    represented by the text of its [Error()] method and a nil error by [None];
    a slice is [option (list A)] so that the nil slice and the empty slice
    stay apart.  Everything the program reaches through a package that is not
    part of the repository (strings, idna, fmt, net/http, database/sql with
    the sqlite driver, encoding/json, os) is a variable of the section
    [Program]; the modules [Sample] and [Sqlite] give concrete instances on
    which the model is run, and the module [Scanner] tells which tokens
    bufio's scanner makes of a body. *)

From stdpp Require Import base option list strings gmap.
From Stdlib Require Import ZArith Lia.

Open Scope string_scope.
Open Scope list_scope.
Open Scope Z_scope.

(** ** Go values *)

Definition error := string.

(** [type tld string] *)
Definition tld := string.

Definition slice (A : Type) := option (list A).

(** [len(s)] and [range s] see the elements only. *)
Definition elems {A} (s : slice A) : list A := default [] s.

(** [append(s, x)]: the result is never nil. *)
Definition append {A} (s : slice A) (x : A) : slice A := Some (elems s ++ [x]).

(** [make([]T, 0, n)]: empty, and not nil. *)
Definition make {A} (n : nat) : slice A := Some [].

(** [strings.HasPrefix(s, "#")] *)
Definition HasPrefix (s pre : string) : bool := String.prefix pre s.

(** ** Constants of main.go *)

(** [10 * time.Second], in nanoseconds as [time.Duration] counts. *)
Definition requestTimeout : Z := 10 * 1000000000.

Definition tldURL : string := "https://data.iana.org/TLD/tlds-alpha-by-domain.txt".

Definition defaultSQLiteFilePath : string := "./db.sqlite".

Definition sqliteInitStmt : string := "
		begin;
		create table tlds (
			tld text primary key not null
		) strict;
		commit;
	".

Definition sqliteInsertStmt : string := "
		insert into tlds (tld) values (?);
	".

(** The message [run] compares an insert error with. *)
Definition uniqueMsg : string :=
  "constraint failed: UNIQUE constraint failed: tlds.tld (1555)".

(** ** log/slog *)

Definition LevelDebug : Z := -4.
Definition LevelInfo : Z := 0.
Definition LevelError : Z := 8.

(** A logger is the level its [slog.LevelVar] holds. *)
Record Logger := mkLogger { Level : Z }.

(** One JSON line on [logTarget]. *)
Record LogLine := mkLogLine {
  level : Z;
  msg : string;
  attrs : list (string * string)
}.

Definition Enabled (l : Logger) (lvl : Z) : bool := Level l <=? lvl.

(** ** The outside world *)

(** What [http.NewRequestWithContext] and [Client.Do] answer.  A response is
    the sequence of tokens [scanner.Text()] yields until [scanner.Scan()]
    returns false, the error the scanner stopped on, if any (what
    [scanner.Err()] would report), and the result of [res.Body.Close()]. *)
Inductive HTTP :=
| NewRequestFails (err : error)
| DoFails (err : error)
| Response (lines : list string) (scanErr : option error) (closeErr : option error).

(** Calls into the storage API, in the order they are made. *)
Inductive Call :=
| CallStat (name : string)
| CallOpen (dataSourceName : string)
| CallExec (dataSourceName query : string)
| CallPrepare (dataSourceName query : string)
| CallStmtExec (dataSourceName query : string) (arg : tld)
| CallStmtClose (dataSourceName : string).

(** os and database/sql over a file system of type [FS]. *)
Record Storage (FS : Type) := mkStorage {
  (** [os.IsNotExist(err)] for the error of [os.Stat(name)] *)
  StatIsNotExist : string -> FS -> bool;
  Open : string -> FS -> FS * option error;
  Exec : string -> string -> FS -> FS * option error;
  Prepare : string -> string -> FS -> FS * option error;
  StmtExec : string -> string -> tld -> FS -> FS * option error;
  StmtClose : string -> FS -> FS * option error
}.
Arguments StatIsNotExist {FS}.
Arguments Open {FS}.
Arguments Exec {FS}.
Arguments Prepare {FS}.
Arguments StmtExec {FS}.
Arguments StmtClose {FS}.

Record World (FS : Type) := mkWorld {
  files : FS;
  stderr : list LogLine;
  stdout : list string;
  calls : list Call
}.
Arguments mkWorld {FS}.
Arguments files {FS}.
Arguments stderr {FS}.
Arguments stdout {FS}.
Arguments calls {FS}.

(** ** A state monad over the world *)

Definition IO (FS A : Type) := World FS -> A * World FS.

Definition ret {FS A} (a : A) : IO FS A := fun w => (a, w).

Definition bind {FS A B} (c : IO FS A) (k : A -> IO FS B) : IO FS B :=
  fun w => let (a, w') := c w in k a w'.

Notation "'let*' x := c 'in' k" := (bind c (fun x => k))
  (at level 10, x name, c at level 200, k at level 200).
Notation "'do*' c 'in' k" := (bind c (fun _ => k))
  (at level 10, c at level 200, k at level 200).

(** ** RFC 3492: decoding of one punycode label

  The procedure of section 6.2, over code points; the overflow and range
  checks are those of a 32-bit implementation. *)
Module Punycode.

Definition base : Z := 36.
Definition damp : Z := 700.
Definition initialBias : Z := 72.
Definition initialN : Z := 128.
Definition skew : Z := 38.
Definition tmax : Z := 26.
Definition tmin : Z := 1.
Definition maxInt32 : Z := 2147483647.
Definition maxRune : Z := 1114111.

Definition byte (x : Ascii.ascii) : Z := Z.of_nat (Ascii.nat_of_ascii x).

Definition decodeDigit (x : Ascii.ascii) : option Z :=
  let n := byte x in
  if (48 <=? n) && (n <=? 57) then Some (n - 22)
  else if (65 <=? n) && (n <=? 90) then Some (n - 65)
  else if (97 <=? n) && (n <=? 122) then Some (n - 97)
  else None.

Fixpoint adaptLoop (fuel : nat) (delta k : Z) : Z * Z :=
  match fuel with
  | O => (delta, k)
  | S fuel' =>
      if delta >? ((base - tmin) * tmax) `quot` 2
      then adaptLoop fuel' (delta `quot` (base - tmin)) (k + base)
      else (delta, k)
  end.

(** Bias adaptation (section 6.1); a delta below 2^31 leaves the loop
    within seven rounds. *)
Definition adapt (delta numPoints : Z) (firstTime : bool) : Z :=
  let delta := if firstTime then delta `quot` damp else delta `quot` 2 in
  let delta := delta + delta `quot` numPoints in
  let (delta, k) := adaptLoop 8 delta 0 in
  k + ((base - tmin + 1) * delta) `quot` (delta + skew).

(** One generalized variable-length integer, added to [i]; the rest of the
    input is returned with it. *)
Fixpoint decodeInt (enc : string) (i w k bias : Z) : option (Z * string) :=
  match enc with
  | EmptyString => None
  | String x rest =>
      match decodeDigit x with
      | None => None
      | Some digit =>
          let i := i + digit * w in
          if i >? maxInt32 then None
          else
            let t := if k <=? bias then tmin
                     else if k >=? bias + tmax then tmax
                     else k - bias in
            if digit <? t then Some (i, rest)
            else
              let w := w * (base - t) in
              if w >? maxInt32 then None
              else decodeInt rest i w (k + base) bias
      end
  end.

Definition insertAt (i : Z) (n : Z) (output : list Z) : list Z :=
  take (Z.to_nat i) output ++ n :: drop (Z.to_nat i) output.

Fixpoint decodeLoop (fuel : nat) (enc : string) (output : list Z) (i n bias : Z)
  : option (list Z) :=
  match enc with
  | EmptyString => Some output
  | _ =>
      match fuel with
      | O => None
      | S fuel' =>
          match decodeInt enc i 1 base bias with
          | None => None
          | Some (i', rest) =>
              let x := Z.of_nat (length output) + 1 in
              let bias := adapt (i' - i) x (i =? 0) in
              let n := n + i' `quot` x in
              let i := i' `rem` x in
              if (1024 <? x) || (n >? maxRune) then None
              else decodeLoop fuel' rest (insertAt i n output) (i + 1) n bias
          end
      end
  end.

(** The basic code points before the last delimiter, and what follows it. *)
Fixpoint splitLast (s : string) : option (string * string) :=
  match s with
  | EmptyString => None
  | String c rest =>
      match splitLast rest with
      | Some (b, e) => Some (String c b, e)
      | None => if Ascii.eqb c (Ascii.ascii_of_nat 45) then Some (EmptyString, rest) else None
      end
  end.

Definition codePoints (s : string) : list Z := map byte (String.list_ascii_of_string s).

Definition decode (encoded : string) : option (list Z) :=
  match splitLast encoded with
  | None => decodeLoop (String.length encoded) encoded [] 0 initialN initialBias
  | Some (EmptyString, _) => None
  | Some (basic, EmptyString) => Some (codePoints basic)
  | Some (basic, rest) =>
      decodeLoop (String.length rest) rest (codePoints basic) 0 initialN initialBias
  end.

Definition chr (n : Z) : Ascii.ascii := Ascii.ascii_of_nat (Z.to_nat n).

(** UTF-8 of one code point *)
Definition utf8 (n : Z) : string :=
  if n <? 128 then String (chr n) ""
  else if n <? 2048 then
    String (chr (192 + n `quot` 64)) (String (chr (128 + n `rem` 64)) "")
  else if n <? 65536 then
    String (chr (224 + n `quot` 4096))
      (String (chr (128 + (n `quot` 64) `rem` 64)) (String (chr (128 + n `rem` 64)) ""))
  else
    String (chr (240 + n `quot` 262144))
      (String (chr (128 + (n `quot` 4096) `rem` 64))
         (String (chr (128 + (n `quot` 64) `rem` 64)) (String (chr (128 + n `rem` 64)) ""))).

Definition toString (output : list Z) : string := String.concat "" (map utf8 output).

End Punycode.

(** ** Concrete library functions

  Instances on which the model runs.  [TrimSpace] and [ToLower] agree with
  package strings on ASCII text, [ToLower] also on the letters of Latin-1;
  [Quote] and [jsonString] agree with fmt and encoding/json on text that
  needs no escape; [ToUnicode] follows the label loop of the idna profile
  (every label that starts with the ACE prefix is decoded, a label that
  does not decode is kept and the first error reported) and leaves the
  check of the Bidi rule out. *)
Module Sample.

Definition isSpace (c : Ascii.ascii) : bool :=
  let n := Ascii.nat_of_ascii c in
  ((9 <=? n) && (n <=? 13) || (n =? 32))%nat.

Fixpoint trimLeft (s : string) : string :=
  match s with
  | EmptyString => EmptyString
  | String c rest => if isSpace c then trimLeft rest else s
  end.

Fixpoint trimRight (s : string) : string :=
  match s with
  | EmptyString => EmptyString
  | String c rest =>
      match trimRight rest with
      | EmptyString => if isSpace c then EmptyString else String c EmptyString
      | rest' => String c rest'
      end
  end.

Definition TrimSpace (s : string) : string := trimRight (trimLeft s).

Definition shift (c : Ascii.ascii) : Ascii.ascii :=
  Ascii.ascii_of_nat (Ascii.nat_of_ascii c + 32).

(** [A] .. [Z] *)
Definition upper (c : Ascii.ascii) : bool :=
  let n := Ascii.nat_of_ascii c in ((65 <=? n) && (n <=? 90))%nat.

(** The first byte of U+00C0 .. U+00FF in UTF-8 *)
Definition lead (c : Ascii.ascii) : bool :=
  (Ascii.nat_of_ascii c =? 195)%nat.

(** The second byte of U+00C0 .. U+00DE, the multiplication sign apart *)
Definition capital (c : Ascii.ascii) : bool :=
  let n := Ascii.nat_of_ascii c in
  ((128 <=? n) && (n <=? 158) && negb (n =? 151))%nat.

(** [afterLead]: the byte before was [lead]. *)
Fixpoint lower (afterLead : bool) (s : string) : string :=
  match s with
  | EmptyString => EmptyString
  | String c rest =>
      if upper c || afterLead && capital c then String (shift c) (lower false rest)
      else String c (lower (lead c) rest)
  end.

Definition ToLower (s : string) : string := lower false s.

Definition doubleQuote : string := String (Ascii.ascii_of_nat 34) "".

Definition Quote (s : string) : string := doubleQuote +:+ s +:+ doubleQuote.

Definition jsonString (s : string) : string := doubleQuote +:+ s +:+ doubleQuote.

Fixpoint labels (s : string) : list string :=
  match s with
  | EmptyString => [EmptyString]
  | String c rest =>
      if Ascii.eqb c (Ascii.ascii_of_nat 46) then EmptyString :: labels rest
      else
        match labels rest with
        | lbl :: more => String c lbl :: more
        | [] => [String c EmptyString]
        end
  end.

Definition acePrefix : string := "xn--".

Definition toUnicodeLabel (lbl : string) : string * option error :=
  if String.prefix acePrefix lbl then
    let enc := String.substring 4 (String.length lbl - 4) lbl in
    match Punycode.decode enc with
    | Some u => (Punycode.toString u, None)
    | None => (lbl, Some ("idna: invalid label " +:+ Quote enc))
    end
  else (lbl, None).

Fixpoint firstError (errs : list (option error)) : option error :=
  match errs with
  | [] => None
  | Some e :: _ => Some e
  | None :: rest => firstError rest
  end.

Definition ToUnicode (s : string) : string * option error :=
  let rs := map toUnicodeLabel (labels s) in
  (String.concat "." (map fst rs), firstError (map snd rs)).

(** A server that answers with the given lines, and a standard output
    that takes every write. *)
Definition serve (lines : list string) : Z -> string -> HTTP :=
  fun _ _ => Response lines None None.

Definition StdoutWrite : list string -> string -> option error :=
  fun _ _ => None.

End Sample.

(** ** A model of the sqlite driver

  A database file holds the rows of table [tlds] once the table exists,
  and may be read-only.  The driver reports a duplicate key with the text
  [run] expects. *)
Module Sqlite.

Record File := mkFile {
  table : option (list tld);
  readonly : bool
}.

Definition readonlyMsg : error := "attempt to write a readonly database (8)".
Definition noTableMsg : error := "SQL logic error: no such table: tlds (1)".
Definition tableExistsMsg : error := "SQL logic error: table tlds already exists (1)".
Definition cantOpenMsg : error := "unable to open database file: out of memory (14)".
Definition syntaxMsg : error := "SQL logic error: unsupported statement (1)".

Definition StatIsNotExist (name : string) (fs : gmap string File) : bool :=
  bool_decide (fs !! name = None).

(** [sql.Open] only records the data source name. *)
Definition Open (dsn : string) (fs : gmap string File) : gmap string File * option error :=
  (fs, None).

Definition Exec (dsn query : string) (fs : gmap string File)
  : gmap string File * option error :=
  if String.eqb query sqliteInitStmt then
    match fs !! dsn with
    | None => (<[dsn := mkFile (Some []) false]> fs, None)
    | Some f =>
        if readonly f then (fs, Some readonlyMsg)
        else
          match table f with
          | None => (<[dsn := mkFile (Some []) false]> fs, None)
          | Some _ => (fs, Some tableExistsMsg)
          end
    end
  else (fs, Some syntaxMsg).

Definition Prepare (dsn query : string) (fs : gmap string File)
  : gmap string File * option error :=
  if String.eqb query sqliteInsertStmt then
    match fs !! dsn with
    | None => (<[dsn := mkFile None false]> fs, Some noTableMsg)
    | Some f =>
        match table f with
        | None => (fs, Some noTableMsg)
        | Some _ => (fs, None)
        end
    end
  else (fs, Some syntaxMsg).

Definition StmtExec (dsn query : string) (arg : tld) (fs : gmap string File)
  : gmap string File * option error :=
  match fs !! dsn with
  | None => (fs, Some cantOpenMsg)
  | Some f =>
      match table f with
      | None => (fs, Some noTableMsg)
      | Some rows =>
          if readonly f then (fs, Some readonlyMsg)
          else if bool_decide (arg ∈ rows) then (fs, Some uniqueMsg)
          else (<[dsn := mkFile (Some (rows ++ [arg])) false]> fs, None)
      end
  end.

Definition StmtClose (dsn : string) (fs : gmap string File)
  : gmap string File * option error :=
  (fs, None).

Definition storage : Storage (gmap string File) :=
  mkStorage _ StatIsNotExist Open Exec Prepare StmtExec StmtClose.

End Sqlite.

(** ** A model of bufio.Scanner

  [bufio.NewScanner] with the split function [ScanLines] and the default
  buffer, over a body that is read to its end without a read error: the
  body is cut at every newline, a line that does not fit the buffer ends the
  scan with [ErrTooLong], and every line before it is a token, without its
  trailing carriage return. *)
Module Scanner.

(** [bufio.MaxScanTokenSize]: a line and the newline after it must fit. *)
Definition MaxScanTokenSize : nat := 64 * 1024.

Definition ErrTooLong : error := "bufio.Scanner: token too long".

(** The lines of a body: the text between newlines; what follows the last
    newline is a line unless it is empty. *)
Fixpoint splitLines (s : string) : list string :=
  match s with
  | EmptyString => []
  | String c rest =>
      if Ascii.eqb c (Ascii.ascii_of_nat 10) then EmptyString :: splitLines rest
      else
        match splitLines rest with
        | [] => [String c EmptyString]
        | line :: more => String c line :: more
        end
  end.

(** [dropCR] of package bufio *)
Fixpoint dropCR (line : string) : string :=
  match line with
  | EmptyString => EmptyString
  | String c EmptyString =>
      if Ascii.eqb c (Ascii.ascii_of_nat 13) then EmptyString else line
  | String c rest => String c (dropCR rest)
  end.

Fixpoint scan (ls : list string) : list string * option error :=
  match ls with
  | [] => ([], None)
  | line :: more =>
      if (MaxScanTokenSize <=? String.length line)%nat then ([], Some ErrTooLong)
      else let (tokens, err) := scan more in (dropCR line :: tokens, err)
  end.

(** What [scanner.Text()] yields, Scan by Scan, and what [scanner.Err()]
    holds when [Scan] has returned false. *)
Definition tokens (body : string) : list string * option error :=
  scan (splitLines body).

End Scanner.


(** ** env.go, and the configuration [main] derives from it *)

(** The process: the value of [-debug] after [flag.Parse()], and the
    environment ([None]: the variable is not set). *)
Record Process := mkProcess {
  flagDebug : bool;
  environ : string -> option string
}.

(** [os.Getenv]: empty when the variable is not set. *)
Definition Getenv (p : Process) (key : string) : string :=
  default "" (environ p key).

Definition getenv (p : Process) (key fallback : string) : string :=
  let v := Getenv p key in
  if String.eqb v "" then fallback else v.

(** The process with one variable set ([Some v]) or unset ([None]). *)
Definition withEnv (key : string) (v : option string) (p : Process) : Process :=
  mkProcess (flagDebug p)
    (fun k => if String.eqb k key then v else environ p k).

(** The file and the log level [main] settles on before it calls [run]. *)
Definition mainSqliteFile (p : Process) : string :=
  getenv p "SQLITE_FILE" defaultSQLiteFilePath.

Definition mainDebug (p : Process) : bool :=
  let debug := flagDebug p in
  (* We have a debug env var as well as a debug CLI flag *)
  if String.eqb (getenv p "DEBUG" "false") "true" then true else debug.

Definition mainLevel (p : Process) : Z :=
  let ll := LevelInfo in
  if mainDebug p then LevelDebug else ll.

(** ** The program *)

Section Program.

(** [strings.TrimSpace], [strings.ToLower] *)
Variables TrimSpace ToLower : string -> string.

(** [idna.New(idna.BidiRule()).ToUnicode]: a string and an error, both
    always returned. *)
Variable ToUnicode : string -> string * option error.

(** [%q] of fmt *)
Variable Quote : string -> string.

(** A Go string as a JSON string literal (encoding/json). *)
Variable jsonString : string -> string.

(** The network: what the GET gives within the time budget. *)
Variable Do : Z -> string -> HTTP.

Context {FS : Type}.
Variable storage : Storage FS.

(** [os.Stdout.Write]: the error, given what was written before.  A failed
    write leaves nothing on the stream. *)
Variable StdoutWrite : list string -> string -> option error.

(** *** Logging *)

Definition emit (l : Logger) (r : LogLine) : IO FS unit :=
  fun w =>
    if Enabled l (level r)
    then (tt, mkWorld (files w) (stderr w ++ [r]) (stdout w) (calls w))
    else (tt, w).

Definition Error (l : Logger) (m : string) (args : list (string * string)) : IO FS unit :=
  emit l (mkLogLine LevelError m args).

Definition Info (l : Logger) (m : string) (args : list (string * string)) : IO FS unit :=
  emit l (mkLogLine LevelInfo m args).

(** *** loadTLDs *)

(** The body of the scanner loop for one token. *)
Definition scanLine (l : Logger) (tlds : slice tld) (text : string) : IO FS (slice tld) :=
  let line := ToLower (TrimSpace text) in
  if String.eqb line "" || HasPrefix line "#" then ret tlds
  else
    let (t, err) := ToUnicode line in
    do* match err with
        | Some e => Error l ("failed to puny decode " +:+ Quote line +:+ ": " +:+ e) []
        | None => ret tt
        end in
    ret (append tlds t).

Fixpoint scanLoop (l : Logger) (tlds : slice tld) (lines : list string) : IO FS (slice tld) :=
  match lines with
  | [] => ret tlds
  | text :: rest => let* tlds' := scanLine l tlds text in scanLoop l tlds' rest
  end.

Definition loadTLDs (requestTimeout : Z) (l : Logger) : IO FS (slice tld * option error) :=
  match Do requestTimeout tldURL with
  | NewRequestFails err => ret (None, Some ("failed to create request: " +:+ err))
  | DoFails err => ret (None, Some ("failed to get: " +:+ err))
  | Response lines _ closeErr =>
      let* tlds := scanLoop l None lines in
      (* deferred: res.Body.Close() *)
      do* match closeErr with
          | Some e => Error l ("failed to close body: " +:+ e) []
          | None => ret tt
          end in
      ret (tlds, None)
  end.

(** *** Storage calls, each recorded in [calls] *)

Definition record (c : Call) : IO FS unit :=
  fun w => (tt, mkWorld (files w) (stderr w) (stdout w) (calls w ++ [c])).

Definition onFiles (f : FS -> FS * option error) : IO FS (option error) :=
  fun w => let (fs, err) := f (files w) in
           (err, mkWorld fs (stderr w) (stdout w) (calls w)).

Definition osStatIsNotExist (name : string) : IO FS bool :=
  do* record (CallStat name) in
  fun w => (StatIsNotExist storage name (files w), w).

Definition sqlOpen (dsn : string) : IO FS (option error) :=
  do* record (CallOpen dsn) in onFiles (Open storage dsn).

Definition dbExec (db query : string) : IO FS (option error) :=
  do* record (CallExec db query) in onFiles (Exec storage db query).

Definition dbPrepare (db query : string) : IO FS (option error) :=
  do* record (CallPrepare db query) in onFiles (Prepare storage db query).

Definition stmtExecContext (db query : string) (arg : tld) : IO FS (option error) :=
  do* record (CallStmtExec db query arg) in onFiles (StmtExec storage db query arg).

Definition stmtClose (db : string) : IO FS (option error) :=
  do* record (CallStmtClose db) in onFiles (StmtClose storage db).

(** *** encoding/json on os.Stdout *)

Definition newline : string := String (Ascii.ascii_of_nat 10) "".

(** [json.Marshal] of a [[]tld]: the nil slice is [null]. *)
Definition Marshal (v : slice tld) : string :=
  match v with
  | None => "null"
  | Some ts => "[" +:+ String.concat "," (map jsonString ts) +:+ "]"
  end.

(** [json.NewEncoder(os.Stdout).Encode(v)]: the document and a newline, in
    one write. *)
Definition Encode (v : slice tld) : IO FS (option error) :=
  fun w =>
    let doc := Marshal v +:+ newline in
    match StdoutWrite (stdout w) doc with
    | Some e => (Some e, w)
    | None => (None, mkWorld (files w) (stderr w) (stdout w ++ [doc]) (calls w))
    end.

(** *** run *)

(** [fmt.Sprintf("%+v", tld)]: [tld] is a string type without methods. *)
Definition Sprintf_v (t : tld) : string := t.

(** The body of the insert loop for one entry.  [context.WithoutCancel]
    only detaches the call from the deadline. *)
Definition insertTLD (l : Logger) (db : string) (newTLDs : slice tld) (t : tld)
  : IO FS (slice tld) :=
  let* err := stmtExecContext db sqliteInsertStmt t in
  match err with
  | Some e =>
      if String.eqb e uniqueMsg then
        (* This is fine *)
        ret newTLDs
      else
        do* Error l "failed to exec insert statement"
              [("err", e); ("tld", Sprintf_v t)] in
        ret newTLDs
  | None => ret (append newTLDs t)
  end.

Fixpoint insertLoop (l : Logger) (db : string) (newTLDs : slice tld) (tlds : list tld)
  : IO FS (slice tld) :=
  match tlds with
  | [] => ret newTLDs
  | t :: rest => let* newTLDs' := insertTLD l db newTLDs t in insertLoop l db newTLDs' rest
  end.

Definition run (l : Logger) (sqliteFile : string) : IO FS (option error) :=
  let* loaded := loadTLDs requestTimeout l in
  let (tlds, err) := loaded in
  match err with
  | Some e => ret (Some e)
  | None =>
  let* isFirstRun := osStatIsNotExist sqliteFile in
  let* err := sqlOpen sqliteFile in
  match err with
  | Some e => ret (Some ("failed to open sqlite database: " +:+ e))
  | None =>
  let db := sqliteFile in
  let* err :=
    (if isFirstRun : bool then
       let* err := dbExec db sqliteInitStmt in
       match err with
       | Some e => ret (Some ("failed to init database: " +:+ e))
       | None => do* Info l "successfully initialized database" [] in ret None
       end
     else ret None) in
  match err with
  | Some e => ret (Some e)
  | None =>
  let* err := dbPrepare db sqliteInsertStmt in
  match err with
  | Some e => ret (Some ("failed to prepare insert statement: " +:+ e))
  | None =>
  let* result :=
    (let* newTLDs := insertLoop l db (make (length (elems tlds))) (elems tlds) in
     (* Print as JSON *)
     let* err := Encode newTLDs in
     match err with
     | Some e => ret (Some ("failed to JSON-print to stdout: " +:+ e))
     | None => ret None
     end) in
  (* deferred: stmt.Close() *)
  let* err := stmtClose db in
  do* match err with
      | Some e => Error l ("failed to close insert statement: " +:+ e) []
      | None => ret tt
      end in
  ret result
  end end end end.

(** *** main *)

Definition main (p : Process) : IO FS unit :=
  let sqliteFile := mainSqliteFile p in
  let l := mkLogger (mainLevel p) in
  let* err := run l sqliteFile in
  match err with
  | Some e => Error l e []
  | None => ret tt
  end.

(** [main] with the function it calls in the place of [run] left open, to
    tell what [main] hands to it.  [slog.SetDefault(l)] makes the same logger
    the default one; the program logs through [l] only. *)
Definition mainWith (pipeline : Logger -> string -> IO FS (option error)) (p : Process)
  : IO FS unit :=
  let debug := flagDebug p in
  let sqliteFile := getenv p "SQLITE_FILE" defaultSQLiteFilePath in
  let ll := LevelInfo in
  let debug := if String.eqb (getenv p "DEBUG" "false") "true" then true else debug in
  let ll := if debug then LevelDebug else ll in
  let l := mkLogger ll in
  let* err := pipeline l sqliteFile in
  match err with
  | Some e => Error l e []
  | None => ret tt
  end.

(** *** What the loops compute *)

(** A token as the scanner loop sees it, and whether the loop passes over
    it. *)
Definition normalized (text : string) : string := ToLower (TrimSpace text).

Definition skipped (line : string) : bool :=
  String.eqb line "" || HasPrefix line "#".

Definition kept (lines : list string) : list string :=
  List.filter (fun line => negb (skipped line)) (map normalized lines).

Definition parsed (lines : list string) : list tld :=
  map (fun line => fst (ToUnicode line)) (kept lines).

Definition decodeFailure (line : string) : list LogLine :=
  match snd (ToUnicode line) with
  | Some e =>
      [mkLogLine LevelError ("failed to puny decode " +:+ Quote line +:+ ": " +:+ e) []]
  | None => []
  end.

Definition decodeLog (lines : list string) : list LogLine :=
  flat_map decodeFailure (kept lines).

Definition closeLog (what : string) (err : option error) : list LogLine :=
  match err with
  | Some e => [mkLogLine LevelError (what +:+ e) []]
  | None => []
  end.

(** Several [append]s in a row. *)
Definition extend {A} (s : slice A) (xs : list A) : slice A :=
  match xs with
  | [] => s
  | _ => Some (elems s ++ xs)
  end.

(** The lines a logger lets through, added to the error stream. *)
Definition logAll (l : Logger) (rs : list LogLine) (w : World FS) : World FS :=
  mkWorld (files w)
    (stderr w ++ List.filter (fun r => Enabled l (level r)) rs)
    (stdout w) (calls w).

(** Each entry with the error its insert returns, the store passing from
    one insert to the next, and the store after the last one. *)
Fixpoint attempts (db : string) (tlds : list tld) (fs : FS) : list (tld * option error) :=
  match tlds with
  | [] => []
  | t :: rest =>
      let (fs', err) := StmtExec storage db sqliteInsertStmt t fs in
      (t, err) :: attempts db rest fs'
  end.

Fixpoint stored (db : string) (tlds : list tld) (fs : FS) : FS :=
  match tlds with
  | [] => fs
  | t :: rest => stored db rest (fst (StmtExec storage db sqliteInsertStmt t fs))
  end.

Definition succeeded (o : tld * option error) : bool :=
  match snd o with
  | None => true
  | Some _ => false
  end.

Definition accepted (outs : list (tld * option error)) : list tld :=
  map fst (List.filter succeeded outs).

Definition insertFailure (o : tld * option error) : list LogLine :=
  match snd o with
  | Some e =>
      if String.eqb e uniqueMsg then []
      else [mkLogLine LevelError "failed to exec insert statement"
              [("err", e); ("tld", fst o)]]
  | None => []
  end.

(** [run] between [loadTLDs] and the insert loop: the file is looked up, the
    database opened, initialized on a first run, and the statement prepared. *)
Definition openDB (l : Logger) (sqliteFile : string) : IO FS (option error) :=
  let* isFirstRun := osStatIsNotExist sqliteFile in
  let* err := sqlOpen sqliteFile in
  match err with
  | Some e => ret (Some ("failed to open sqlite database: " +:+ e))
  | None =>
  let* err :=
    (if isFirstRun : bool then
       let* err := dbExec sqliteFile sqliteInitStmt in
       match err with
       | Some e => ret (Some ("failed to init database: " +:+ e))
       | None => do* Info l "successfully initialized database" [] in ret None
       end
     else ret None) in
  match err with
  | Some e => ret (Some e)
  | None =>
  let* err := dbPrepare sqliteFile sqliteInsertStmt in
  match err with
  | Some e => ret (Some ("failed to prepare insert statement: " +:+ e))
  | None => ret None
  end end end.

(** [run] from the insert loop on, the deferred [stmt.Close()] included. *)
Definition insertAndPrint (l : Logger) (db : string) (tlds : slice tld) : IO FS (option error) :=
  let* result :=
    (let* newTLDs := insertLoop l db (make (length (elems tlds))) (elems tlds) in
     let* err := Encode newTLDs in
     match err with
     | Some e => ret (Some ("failed to JSON-print to stdout: " +:+ e))
     | None => ret None
     end) in
  let* err := stmtClose db in
  do* match err with
      | Some e => Error l ("failed to close insert statement: " +:+ e) []
      | None => ret tt
      end in
  ret result.

(** ** Properties *)

(** *** The log *)

Lemma logAll_nil l w : logAll l [] w = w.
Proof. destruct w; unfold logAll; simpl. by rewrite app_nil_r. Qed.

Lemma logAll_app l rs1 rs2 w : logAll l rs2 (logAll l rs1 w) = logAll l (rs1 ++ rs2) w.
Proof. unfold logAll; simpl. by rewrite List.filter_app, app_assoc. Qed.

Lemma emit_logAll l r w : emit l r w = (tt, logAll l [r] w).
Proof.
  unfold emit, logAll; simpl.
  destruct (Enabled l (level r)); [done|].
  destruct w; simpl. by rewrite app_nil_r.
Qed.

Lemma extend_extend {A} (s : slice A) xs ys : extend (extend s xs) ys = extend s (xs ++ ys).
Proof.
  destruct xs as [|x xs]; [done|].
  destruct ys as [|y ys]; simpl; [by rewrite app_nil_r|].
  by rewrite <- app_assoc.
Qed.

Lemma elems_extend {A} (s : slice A) xs : elems (extend s xs) = elems s ++ xs.
Proof. destruct xs; simpl; [by rewrite app_nil_r|done]. Qed.

(** *** The scanner loop *)

Lemma kept_cons text lines :
  kept (text :: lines) =
  (if skipped (normalized text) then [] else [normalized text]) ++ kept lines.
Proof. unfold kept; simpl. by destruct (skipped (normalized text)). Qed.

Lemma kept_app lines1 lines2 : kept (lines1 ++ lines2) = kept lines1 ++ kept lines2.
Proof. unfold kept. by rewrite map_app, List.filter_app. Qed.

Lemma parsed_app lines1 lines2 : parsed (lines1 ++ lines2) = parsed lines1 ++ parsed lines2.
Proof. unfold parsed. by rewrite kept_app, map_app. Qed.

Lemma decodeLog_app lines1 lines2 :
  decodeLog (lines1 ++ lines2) = decodeLog lines1 ++ decodeLog lines2.
Proof. unfold decodeLog. by rewrite kept_app, flat_map_app. Qed.

Lemma scanLine_spec l tlds text w :
  scanLine l tlds text w = (extend tlds (parsed [text]), logAll l (decodeLog [text]) w).
Proof.
  unfold scanLine, parsed, decodeLog. rewrite kept_cons. fold (normalized text).
  unfold skipped at 1. fold (skipped (normalized text)).
  destruct (skipped (normalized text)); simpl.
  - unfold ret. by rewrite logAll_nil.
  - unfold decodeFailure.
    destruct (ToUnicode (normalized text)) as [t [e|]]; simpl;
      unfold bind, Error, ret; [rewrite emit_logAll | rewrite logAll_nil]; done.
Qed.

Lemma scanLoop_spec l lines : forall tlds w,
  scanLoop l tlds lines w = (extend tlds (parsed lines), logAll l (decodeLog lines) w).
Proof.
  induction lines as [|text lines IH]; intros tlds w.
  - simpl. unfold ret. by rewrite logAll_nil.
  - cbn [scanLoop]. unfold bind. rewrite scanLine_spec, IH.
    rewrite extend_extend, logAll_app.
    by rewrite <- parsed_app, <- decodeLog_app.
Qed.

Lemma loadTLDs_response l lines scanErr closeErr w :
  Do requestTimeout tldURL = Response lines scanErr closeErr ->
  loadTLDs requestTimeout l w =
  ((extend None (parsed lines), None),
   logAll l (decodeLog lines ++ closeLog "failed to close body: " closeErr) w).
Proof.
  intros HDo. unfold loadTLDs. rewrite HDo. unfold bind.
  rewrite scanLoop_spec. unfold closeLog.
  destruct closeErr as [e|]; unfold Error, ret.
  - by rewrite emit_logAll, logAll_app.
  - by rewrite app_nil_r.
Qed.

Lemma In_kept line lines :
  In line (kept lines) <->
  exists text, In text lines /\ line = normalized text /\ skipped line = false.
Proof.
  unfold kept. rewrite List.filter_In, in_map_iff. split.
  - intros [[text [<- Hin]] Hs]. exists text.
    by destruct (skipped (normalized text)).
  - intros [text [Hin [-> Hs]]]. split; [by exists text | by rewrite Hs].
Qed.

(** The entries are the tokens that, trimmed and lowercased, are neither
    empty nor start with [#], each replaced by what [ToUnicode] returns for
    it, in the order of the tokens and with repetitions kept. *)
Lemma loadTLDs_tokens l lines scanErr closeErr w :
  Do requestTimeout tldURL = Response lines scanErr closeErr ->
  exists tlds w',
    loadTLDs requestTimeout l w = ((tlds, None), w') /\
    elems tlds =
      map (fun line => fst (ToUnicode line))
        (List.filter (fun line => negb (String.eqb line "" || HasPrefix line "#"))
           (map (fun text => ToLower (TrimSpace text)) lines)).
Proof.
  intros HDo. eexists _, _. split.
  - by apply loadTLDs_response with (1 := HDo).
  - by rewrite elems_extend.
Qed.

(** C1, as the code has it: a token whose decoding fails is logged with the
    line and the error, and the string [ToUnicode] returned with the error is
    appended in its place (the line itself where the decoder hands its input
    back); the entries before and after it are unaffected and no error is
    returned. *)
Theorem loadTLDs_decode_failure l before text after scanErr closeErr t e w :
  Enabled l LevelError = true ->
  Do requestTimeout tldURL = Response (before ++ text :: after) scanErr closeErr ->
  String.eqb (ToLower (TrimSpace text)) "" || HasPrefix (ToLower (TrimSpace text)) "#" = false ->
  ToUnicode (ToLower (TrimSpace text)) = (t, Some e) ->
  exists tlds w' logBefore logAfter,
    loadTLDs requestTimeout l w = ((tlds, None), w') /\
    elems tlds = parsed before ++ t :: parsed after /\
    stderr w' =
      stderr w ++ logBefore ++
      mkLogLine LevelError
        ("failed to puny decode " +:+ Quote (ToLower (TrimSpace text)) +:+ ": " +:+ e) []
      :: logAfter /\
    (t = ToLower (TrimSpace text) -> In (ToLower (TrimSpace text)) (elems tlds)).
Proof.
  intros Hl HDo Hkeep Hdec.
  assert (Hk : kept [text] = [normalized text]).
  { rewrite kept_cons. unfold skipped, normalized. by rewrite Hkeep. }
  assert (Hp : parsed (before ++ text :: after) = parsed before ++ t :: parsed after).
  { change (text :: after) with ([text] ++ after). rewrite !parsed_app.
    unfold parsed at 2. rewrite Hk. unfold normalized. simpl. by rewrite Hdec. }
  eexists _, _,
    (List.filter (fun r => Enabled l (level r)) (decodeLog before)),
    (List.filter (fun r => Enabled l (level r))
       (decodeLog after ++ closeLog "failed to close body: " closeErr)).
  split; [by apply loadTLDs_response with (1 := HDo)|].
  rewrite elems_extend. simpl. split; [done|]. split.
  - f_equal. change (text :: after) with ([text] ++ after).
    rewrite !decodeLog_app, <- !app_assoc, !List.filter_app. f_equal.
    unfold decodeLog at 1. rewrite Hk. simpl. unfold decodeFailure, normalized.
    rewrite Hdec. simpl. by rewrite Hl.
  - intros <-. rewrite Hp. apply in_or_app. right. by left.
Qed.

(** C6, as the code has it: every entry is what [ToUnicode] returned for a
    token that had been trimmed and lowercased before; nothing is lowercased
    after decoding, so the entries the decoder returned unchanged are
    lowercase. *)
Theorem loadTLDs_lowercases_before_decoding l lines scanErr closeErr w tlds w' entry :
  (forall s, ToLower (ToLower s) = ToLower s) ->
  Do requestTimeout tldURL = Response lines scanErr closeErr ->
  loadTLDs requestTimeout l w = ((tlds, None), w') ->
  In entry (elems tlds) ->
  exists text,
    In text lines /\
    ToLower (ToLower (TrimSpace text)) = ToLower (TrimSpace text) /\
    entry = fst (ToUnicode (ToLower (TrimSpace text))) /\
    (entry = ToLower (TrimSpace text) -> ToLower entry = entry).
Proof.
  intros Hidem HDo Hload Hin.
  rewrite (loadTLDs_response l _ _ _ w HDo) in Hload.
  injection Hload as <- _. rewrite elems_extend in Hin. simpl in Hin.
  unfold parsed in Hin. apply in_map_iff in Hin as [line [<- Hline]].
  apply In_kept in Hline as [text [Htext [-> _]]].
  exists text. unfold normalized. repeat split; [done|apply Hidem|].
  intros ->. apply Hidem.
Qed.

(** *** The insert loop *)

Lemma attempts_fst db tlds : forall fs, map fst (attempts db tlds fs) = tlds.
Proof.
  induction tlds as [|t rest IH]; intros fs; simpl; [done|].
  destruct (StmtExec storage db sqliteInsertStmt t fs) as [fs' err]. simpl.
  by rewrite IH.
Qed.

Lemma accepted_sublist (outs : list (tld * option error)) :
  sublist (accepted outs) (map fst outs).
Proof.
  unfold accepted. induction outs as [|o outs IH]; simpl; [constructor|].
  destruct (succeeded o); simpl; by constructor.
Qed.

Lemma insertTLD_spec l db newTLDs t w :
  insertTLD l db newTLDs t w =
  (extend newTLDs (accepted (attempts db [t] (files w))),
   mkWorld (stored db [t] (files w))
     (stderr w ++ List.filter (fun r => Enabled l (level r))
                    (flat_map insertFailure (attempts db [t] (files w))))
     (stdout w)
     (calls w ++ [CallStmtExec db sqliteInsertStmt t])).
Proof.
  unfold insertTLD, stmtExecContext, bind, record, onFiles; simpl.
  destruct (StmtExec storage db sqliteInsertStmt t (files w)) as [fs' [e|]]; simpl.
  - unfold insertFailure; simpl. destruct (String.eqb e uniqueMsg); simpl.
    + unfold ret. by rewrite app_nil_r.
    + unfold Error. by rewrite emit_logAll.
  - unfold ret. by rewrite app_nil_r.
Qed.

Lemma insertLoop_spec l db tlds : forall newTLDs w,
  insertLoop l db newTLDs tlds w =
  (extend newTLDs (accepted (attempts db tlds (files w))),
   mkWorld (stored db tlds (files w))
     (stderr w ++ List.filter (fun r => Enabled l (level r))
                    (flat_map insertFailure (attempts db tlds (files w))))
     (stdout w)
     (calls w ++ map (CallStmtExec db sqliteInsertStmt) tlds)).
Proof.
  induction tlds as [|t rest IH]; intros newTLDs w.
  - simpl. unfold ret. destruct w; simpl. by rewrite !app_nil_r.
  - cbn [insertLoop]. unfold bind. rewrite insertTLD_spec, IH. simpl.
    destruct (StmtExec storage db sqliteInsertStmt t (files w)) as [fs' err]. simpl.
    rewrite extend_extend. f_equal.
    + unfold accepted. simpl. destruct (succeeded (t, err)); simpl; by rewrite ?app_nil_r.
    + rewrite app_nil_r, List.filter_app, <- !app_assoc. done.
Qed.

(** *** run, phase by phase *)

Lemma run_phases l sqliteFile w :
  run l sqliteFile w =
  match loadTLDs requestTimeout l w with
  | ((_, Some e), w1) => (Some e, w1)
  | ((tlds, None), w1) =>
      match openDB l sqliteFile w1 with
      | (Some e, w2) => (Some e, w2)
      | (None, w2) => insertAndPrint l sqliteFile tlds w2
      end
  end.
Proof.
  unfold run, openDB, insertAndPrint, bind.
  destruct (loadTLDs requestTimeout l w) as [[tlds [e|]] w1]; [done|].
  destruct (osStatIsNotExist sqliteFile w1) as [isFirstRun w2].
  destruct (sqlOpen sqliteFile w2) as [[e|] w3]; [done|].
  destruct isFirstRun.
  - destruct (dbExec sqliteFile sqliteInitStmt w3) as [[e|] w4]; [done|].
    unfold ret.
    destruct (Info l "successfully initialized database" [] w4) as [[] w5].
    destruct (dbPrepare sqliteFile sqliteInsertStmt w5) as [[e|] w6]; done.
  - unfold ret.
    destruct (dbPrepare sqliteFile sqliteInsertStmt w3) as [[e|] w4]; done.
Qed.

(** What a failed request leaves behind: the wrapped error, and the world as
    it was, with no call into the storage and nothing printed. *)
Lemma run_fetch_error l sqliteFile w err :
  (Do requestTimeout tldURL = NewRequestFails err ->
   run l sqliteFile w = (Some ("failed to create request: " +:+ err), w)) /\
  (Do requestTimeout tldURL = DoFails err ->
   run l sqliteFile w = (Some ("failed to get: " +:+ err), w)).
Proof.
  split; intros HDo; rewrite run_phases; unfold loadTLDs; by rewrite HDo.
Qed.

(** [main] then logs the error and ends. *)
Lemma main_fetch_error p w err :
  Do requestTimeout tldURL = DoFails err ->
  let w' := snd (main p w) in
  files w' = files w /\ stdout w' = stdout w /\ calls w' = calls w /\
  stderr w' = stderr w ++ [mkLogLine LevelError ("failed to get: " +:+ err) []].
Proof.
  intros HDo. unfold main, bind.
  rewrite (proj2 (run_fetch_error _ _ w err) HDo).
  unfold Error, emit, Enabled, mainLevel. cbn [level Level].
  by destruct (mainDebug p).
Qed.

Lemma extend_make {A} n (xs : list A) : extend (make n) xs = Some xs.
Proof. by destruct xs. Qed.

Lemma openDB_stdout l sqliteFile w : stdout (snd (openDB l sqliteFile w)) = stdout w.
Proof.
  unfold openDB, osStatIsNotExist, sqlOpen, dbExec, dbPrepare, bind, record, onFiles, ret.
  simpl.
  destruct (Open storage sqliteFile (files w)) as [fs1 [e|]]; simpl; [done|].
  destruct (StatIsNotExist storage sqliteFile (files w)); simpl.
  - destruct (Exec storage sqliteFile sqliteInitStmt fs1) as [fs2 [e|]]; simpl; [done|].
    unfold Info. rewrite emit_logAll. simpl.
    by destruct (Prepare storage sqliteFile sqliteInsertStmt fs2) as [fs3 [e|]].
  - by destruct (Prepare storage sqliteFile sqliteInsertStmt fs1) as [fs3 [e|]].
Qed.

Lemma insertAndPrint_spec l db tlds w :
  insertAndPrint l db tlds w =
  let outs := attempts db (elems tlds) (files w) in
  let doc := Marshal (Some (accepted outs)) +:+ newline in
  let werr := StdoutWrite (stdout w) doc in
  let closed := StmtClose storage db (stored db (elems tlds) (files w)) in
  (match werr with
   | Some e => Some ("failed to JSON-print to stdout: " +:+ e)
   | None => None
   end,
   mkWorld (fst closed)
     (stderr w ++
      List.filter (fun r => Enabled l (level r))
        (flat_map insertFailure outs ++
         closeLog "failed to close insert statement: " (snd closed)))
     (stdout w ++ match werr with Some _ => [] | None => [doc] end)
     (calls w ++ map (CallStmtExec db sqliteInsertStmt) (elems tlds) ++ [CallStmtClose db])).
Proof.
  unfold insertAndPrint, bind. rewrite insertLoop_spec, extend_make.
  unfold Encode, stmtClose, bind, record, onFiles, ret. simpl.
  destruct (StdoutWrite _ _) as [e|]; simpl;
    destruct (StmtClose storage db _) as [fs2 [ce|]]; simpl;
    unfold Error; rewrite ?emit_logAll; unfold logAll; simpl;
    rewrite ?List.filter_app, ?app_nil_r, <- ?app_assoc; done.
Qed.


(** *** Further properties of loadTLDs and run *)

Lemma openDB_spec l sqliteFile w :
  openDB l sqliteFile w =
  let opened := Open storage sqliteFile (files w) in
  match snd opened with
  | Some e =>
      (Some ("failed to open sqlite database: " +:+ e),
       mkWorld (fst opened) (stderr w) (stdout w)
         (calls w ++ [CallStat sqliteFile; CallOpen sqliteFile]))
  | None =>
      if StatIsNotExist storage sqliteFile (files w) then
        let inited := Exec storage sqliteFile sqliteInitStmt (fst opened) in
        match snd inited with
        | Some e =>
            (Some ("failed to init database: " +:+ e),
             mkWorld (fst inited) (stderr w) (stdout w)
               (calls w ++ [CallStat sqliteFile; CallOpen sqliteFile;
                            CallExec sqliteFile sqliteInitStmt]))
        | None =>
            let prepared := Prepare storage sqliteFile sqliteInsertStmt (fst inited) in
            (match snd prepared with
             | Some e => Some ("failed to prepare insert statement: " +:+ e)
             | None => None
             end,
             mkWorld (fst prepared)
               (stderr w ++
                List.filter (fun r => Enabled l (level r))
                  [mkLogLine LevelInfo "successfully initialized database" []])
               (stdout w)
               (calls w ++ [CallStat sqliteFile; CallOpen sqliteFile;
                            CallExec sqliteFile sqliteInitStmt;
                            CallPrepare sqliteFile sqliteInsertStmt]))
        end
      else
        let prepared := Prepare storage sqliteFile sqliteInsertStmt (fst opened) in
        (match snd prepared with
         | Some e => Some ("failed to prepare insert statement: " +:+ e)
         | None => None
         end,
         mkWorld (fst prepared) (stderr w) (stdout w)
           (calls w ++ [CallStat sqliteFile; CallOpen sqliteFile;
                        CallPrepare sqliteFile sqliteInsertStmt]))
  end.
Proof.
  unfold openDB, osStatIsNotExist, sqlOpen, dbExec, dbPrepare, bind, record, onFiles, ret.
  cbn [files stderr stdout calls].
  destruct (Open storage sqliteFile (files w)) as [fs1 [e|]]; cbn [fst snd].
  { by rewrite <- app_assoc. }
  destruct (StatIsNotExist storage sqliteFile (files w)); cbn [files stderr stdout calls].
  - destruct (Exec storage sqliteFile sqliteInitStmt fs1) as [fs2 [e|]]; cbn [fst snd].
    { by rewrite <- !app_assoc. }
    unfold Info. rewrite emit_logAll. unfold logAll. cbn [files stderr stdout calls].
    destruct (Prepare storage sqliteFile sqliteInsertStmt fs2) as [fs3 [e|]];
      cbn [fst snd]; by rewrite <- !app_assoc.
  - destruct (Prepare storage sqliteFile sqliteInsertStmt fs1) as [fs3 [e|]];
      cbn [fst snd]; by rewrite <- !app_assoc.
Qed.

Lemma decodeLog_levels lines : Forall (fun r => level r = LevelError) (decodeLog lines).
Proof.
  unfold decodeLog. induction (kept lines) as [|line rest IH]; [constructor|].
  cbn [flat_map]. apply Forall_app. split; [|done].
  unfold decodeFailure. destruct (snd (ToUnicode line)); repeat constructor.
Qed.

Lemma closeLog_levels what err : Forall (fun r => level r = LevelError) (closeLog what err).
Proof. destruct err; repeat constructor. Qed.

Lemma insertFailure_levels outs :
  Forall (fun r => level r = LevelError) (flat_map insertFailure outs).
Proof.
  induction outs as [|o rest IH]; [constructor|].
  cbn [flat_map]. apply Forall_app. split; [|done].
  unfold insertFailure. destruct (snd o) as [e|]; [|constructor].
  destruct (String.eqb e uniqueMsg); repeat constructor.
Qed.

Lemma Forall_filter_levels (P : LogLine -> Prop) f rs :
  Forall P rs -> Forall P (List.filter f rs).
Proof.
  induction 1 as [|r rs' Hr _ IH]; [constructor|].
  cbn [List.filter]. destruct (f r); [by constructor|done].
Qed.

Lemma loadTLDs_frame l w :
  files (snd (loadTLDs requestTimeout l w)) = files w /\
  stdout (snd (loadTLDs requestTimeout l w)) = stdout w /\
  calls (snd (loadTLDs requestTimeout l w)) = calls w.
Proof.
  destruct (Do requestTimeout tldURL) as [err|err|lines scanErr closeErr] eqn:HDo;
    [unfold loadTLDs; by rewrite HDo ..|].
  by rewrite (loadTLDs_response l _ _ _ w HDo).
Qed.

(** X7: [loadTLDs] leaves the files, standard output and the record of
    storage calls alone whatever the request gives; all it does to the world
    is to add lines of level Error to the log. *)
Theorem loadTLDs_only_logs l w :
  let w' := snd (loadTLDs requestTimeout l w) in
  files w' = files w /\ stdout w' = stdout w /\ calls w' = calls w /\
  exists added,
    stderr w' = stderr w ++ added /\ Forall (fun r => level r = LevelError) added.
Proof.
  cbv zeta.
  destruct (Do requestTimeout tldURL) as [err|err|lines scanErr closeErr] eqn:HDo.
  - unfold loadTLDs. rewrite HDo. cbn. repeat split.
    exists []. by rewrite app_nil_r.
  - unfold loadTLDs. rewrite HDo. cbn. repeat split.
    exists []. by rewrite app_nil_r.
  - rewrite (loadTLDs_response l _ _ _ w HDo). cbn [snd logAll files stdout calls stderr].
    repeat split. eexists. split; [reflexivity|].
    apply Forall_filter_levels, Forall_app.
    split; [apply decodeLog_levels | apply closeLog_levels].
Qed.

Lemma mainLevel_enabled p lvl : 0 <= lvl -> Enabled (mkLogger (mainLevel p)) lvl = true.
Proof.
  intros Hlvl. unfold Enabled, mainLevel, LevelDebug, LevelInfo. cbn [Level].
  destruct (mainDebug p); apply Z.leb_le; lia.
Qed.

(** X1: when the request cannot be built, [run] returns the error under the
    prefix of the request, and when [Client.Do] fails, under the prefix of
    the get; either way it leaves the world as it found it: no call into the
    storage, nothing printed, nothing logged; [main] then logs that error,
    once, and does nothing else. *)
Theorem run_aborts_on_fetch_error l sqliteFile p w err :
  (Do requestTimeout tldURL = NewRequestFails err ->
   run l sqliteFile w = (Some ("failed to create request: " +:+ err), w) /\
   main p w =
     (tt, mkWorld (files w)
            (stderr w ++ [mkLogLine LevelError ("failed to create request: " +:+ err) []])
            (stdout w) (calls w))) /\
  (Do requestTimeout tldURL = DoFails err ->
   run l sqliteFile w = (Some ("failed to get: " +:+ err), w) /\
   main p w =
     (tt, mkWorld (files w)
            (stderr w ++ [mkLogLine LevelError ("failed to get: " +:+ err) []])
            (stdout w) (calls w))).
Proof.
  assert (Hmain : forall e, (forall l' f, run l' f w = (Some e, w)) ->
    main p w =
      (tt, mkWorld (files w) (stderr w ++ [mkLogLine LevelError e []]) (stdout w) (calls w))).
  { intros e Hrun. unfold main, bind. rewrite Hrun. unfold Error, emit. cbn [level].
    by rewrite mainLevel_enabled. }
  split; intros HDo.
  - split; [by apply run_fetch_error|].
    apply Hmain. intros l' f. by apply run_fetch_error.
  - split; [by apply run_fetch_error|].
    apply Hmain. intros l' f. by apply run_fetch_error.
Qed.

(** X2: when [sql.Open] fails, [run] returns that error under its prefix
    after two calls, the stat and the open: nothing is initialized, prepared,
    inserted or printed. *)
Theorem run_open_error l sqliteFile w lines scanErr closeErr fs e :
  Do requestTimeout tldURL = Response lines scanErr closeErr ->
  Open storage sqliteFile (files w) = (fs, Some e) ->
  run l sqliteFile w =
  (Some ("failed to open sqlite database: " +:+ e),
   mkWorld fs (stderr (snd (loadTLDs requestTimeout l w))) (stdout w)
     (calls w ++ [CallStat sqliteFile; CallOpen sqliteFile])).
Proof.
  intros HDo Hopen. rewrite run_phases, (loadTLDs_response l _ _ _ w HDo).
  rewrite openDB_spec. cbn [logAll files stderr stdout calls snd]. by rewrite Hopen.
Qed.

(** X3: on a first run, when the statement that creates the table fails,
    [run] returns that error under its prefix: the success of the
    initialization is not logged, and nothing is prepared, inserted or
    printed. *)
Theorem run_init_error l sqliteFile w lines scanErr closeErr fs1 fs2 e :
  Do requestTimeout tldURL = Response lines scanErr closeErr ->
  StatIsNotExist storage sqliteFile (files w) = true ->
  Open storage sqliteFile (files w) = (fs1, None) ->
  Exec storage sqliteFile sqliteInitStmt fs1 = (fs2, Some e) ->
  run l sqliteFile w =
  (Some ("failed to init database: " +:+ e),
   mkWorld fs2 (stderr (snd (loadTLDs requestTimeout l w))) (stdout w)
     (calls w ++ [CallStat sqliteFile; CallOpen sqliteFile;
                  CallExec sqliteFile sqliteInitStmt])).
Proof.
  intros HDo Hstat Hopen Hexec. rewrite run_phases, (loadTLDs_response l _ _ _ w HDo).
  rewrite openDB_spec. cbn [logAll files stderr stdout calls snd].
  rewrite Hopen, Hstat. cbn [fst snd]. by rewrite Hexec.
Qed.

(** X4: on a file that exists, when the insert statement cannot be prepared
    (the file holds no table [tlds], say), [run] returns that error under its
    prefix: the table is not created, nothing is inserted or printed, and no
    statement is closed. *)
Theorem run_prepare_error l sqliteFile w lines scanErr closeErr fs1 fs2 e :
  Do requestTimeout tldURL = Response lines scanErr closeErr ->
  StatIsNotExist storage sqliteFile (files w) = false ->
  Open storage sqliteFile (files w) = (fs1, None) ->
  Prepare storage sqliteFile sqliteInsertStmt fs1 = (fs2, Some e) ->
  run l sqliteFile w =
  (Some ("failed to prepare insert statement: " +:+ e),
   mkWorld fs2 (stderr (snd (loadTLDs requestTimeout l w))) (stdout w)
     (calls w ++ [CallStat sqliteFile; CallOpen sqliteFile;
                  CallPrepare sqliteFile sqliteInsertStmt])).
Proof.
  intros HDo Hstat Hopen Hprep. rewrite run_phases, (loadTLDs_response l _ _ _ w HDo).
  rewrite openDB_spec. cbn [logAll files stderr stdout calls snd].
  rewrite Hopen, Hstat. cbn [fst snd]. by rewrite Hprep.
Qed.

Lemma run_after_openDB l sqliteFile w lines scanErr closeErr w2 :
  Do requestTimeout tldURL = Response lines scanErr closeErr ->
  openDB l sqliteFile (snd (loadTLDs requestTimeout l w)) = (None, w2) ->
  run l sqliteFile w =
  let outs := attempts sqliteFile (parsed lines) (files w2) in
  let doc := Marshal (Some (accepted outs)) +:+ newline in
  let closed := StmtClose storage sqliteFile (stored sqliteFile (parsed lines) (files w2)) in
  (match StdoutWrite (stdout w2) doc with
   | Some e => Some ("failed to JSON-print to stdout: " +:+ e)
   | None => None
   end,
   mkWorld (fst closed)
     (stderr w2 ++
      List.filter (fun r => Enabled l (level r))
        (flat_map insertFailure outs ++
         closeLog "failed to close insert statement: " (snd closed)))
     (stdout w2 ++ match StdoutWrite (stdout w2) doc with Some _ => [] | None => [doc] end)
     (calls w2 ++ map (CallStmtExec sqliteFile sqliteInsertStmt) (parsed lines) ++
      [CallStmtClose sqliteFile])).
Proof.
  intros HDo. rewrite run_phases, (loadTLDs_response l _ _ _ w HDo). cbn [snd].
  intros ->. rewrite insertAndPrint_spec. by rewrite elems_extend.
Qed.

(** X5: when the array cannot be written to standard output, [run] returns
    that error under its prefix, but only after the insert loop: every entry
    has had its insert, what was inserted stays in the database, and the
    statement is closed. *)
Theorem run_print_error l sqliteFile w lines scanErr closeErr w2 e :
  Do requestTimeout tldURL = Response lines scanErr closeErr ->
  openDB l sqliteFile (snd (loadTLDs requestTimeout l w)) = (None, w2) ->
  StdoutWrite (stdout w2)
    (Marshal (Some (accepted (attempts sqliteFile (parsed lines) (files w2)))) +:+ newline) =
    Some e ->
  exists w',
    run l sqliteFile w = (Some ("failed to JSON-print to stdout: " +:+ e), w') /\
    stdout w' = stdout w /\
    files w' =
      fst (StmtClose storage sqliteFile (stored sqliteFile (parsed lines) (files w2))) /\
    calls w' =
      calls w2 ++ map (CallStmtExec sqliteFile sqliteInsertStmt) (parsed lines) ++
      [CallStmtClose sqliteFile].
Proof.
  intros HDo Hopen Hwrite.
  rewrite (run_after_openDB l _ w _ _ _ w2 HDo Hopen). cbv zeta. rewrite Hwrite.
  eexists. split; [reflexivity|]. cbn [files stdout calls].
  split; [|done]. rewrite app_nil_r.
  pose proof (openDB_stdout l sqliteFile (snd (loadTLDs requestTimeout l w))) as Hout.
  rewrite Hopen in Hout. cbn [snd] in Hout. rewrite Hout.
  apply loadTLDs_frame.
Qed.

(** X6: when closing the insert statement fails, the failure is the last
    line of the log and that is all: what [run] returns is decided by the
    write to standard output alone. *)
Theorem run_close_error l sqliteFile w lines scanErr closeErr w2 fs e :
  Enabled l LevelError = true ->
  Do requestTimeout tldURL = Response lines scanErr closeErr ->
  openDB l sqliteFile (snd (loadTLDs requestTimeout l w)) = (None, w2) ->
  StmtClose storage sqliteFile (stored sqliteFile (parsed lines) (files w2)) = (fs, Some e) ->
  exists w' logged,
    run l sqliteFile w =
      (match StdoutWrite (stdout w2)
               (Marshal (Some (accepted (attempts sqliteFile (parsed lines) (files w2))))
                +:+ newline) with
       | Some e' => Some ("failed to JSON-print to stdout: " +:+ e')
       | None => None
       end, w') /\
    files w' = fs /\
    stderr w' =
      logged ++ [mkLogLine LevelError ("failed to close insert statement: " +:+ e) []].
Proof.
  intros Hl HDo Hopen Hclose.
  rewrite (run_after_openDB l _ w _ _ _ w2 HDo Hopen). cbv zeta. rewrite Hclose.
  eexists _, _. split; [reflexivity|]. cbn [files stderr fst snd closeLog].
  split; [done|]. rewrite List.filter_app. cbn [List.filter level]. rewrite Hl.
  by rewrite app_assoc.
Qed.

(** X8: the calls [run] makes after a response, whatever comes of them:
    the stat and the open; the statement that creates the table, only when
    the stat found no file; the prepare; then one insert for every entry, in
    the order of the stream, and the close of the statement.  All of them
    name the file [run] was given.  The sequence stops early only with an
    error, and inserts are made only between a prepare and a close. *)
Theorem run_storage_protocol l sqliteFile w lines scanErr closeErr r w' :
  Do requestTimeout tldURL = Response lines scanErr closeErr ->
  run l sqliteFile w = (r, w') ->
  exists init rest,
    calls w' = calls w ++ [CallStat sqliteFile; CallOpen sqliteFile] ++ init ++ rest /\
    (init = [] \/
     init = [CallExec sqliteFile sqliteInitStmt] /\
     StatIsNotExist storage sqliteFile (files w) = true) /\
    (rest = [] /\ r <> None \/
     rest = [CallPrepare sqliteFile sqliteInsertStmt] /\ r <> None \/
     rest = CallPrepare sqliteFile sqliteInsertStmt ::
            map (CallStmtExec sqliteFile sqliteInsertStmt) (parsed lines) ++
            [CallStmtClose sqliteFile]).
Proof.
  intros HDo Hrun.
  destruct (openDB l sqliteFile (snd (loadTLDs requestTimeout l w))) as [o w2] eqn:Hopen.
  assert (Hcalls : exists init rest,
    calls w2 = calls w ++ [CallStat sqliteFile; CallOpen sqliteFile] ++ init ++ rest /\
    (init = [] \/
     init = [CallExec sqliteFile sqliteInitStmt] /\
     StatIsNotExist storage sqliteFile (files w) = true) /\
    (rest = [] /\ o <> None \/
     rest = [CallPrepare sqliteFile sqliteInsertStmt])).
  { rewrite openDB_spec in Hopen.
    rewrite (loadTLDs_response l _ _ _ w HDo) in Hopen.
    cbn [snd logAll files stderr stdout calls] in Hopen. cbv zeta in Hopen.
    destruct (Open storage sqliteFile (files w)) as [fs1 [e|]]; cbn [fst snd] in Hopen.
    { injection Hopen as <- <-. exists [], []. cbn [calls]. by auto. }
    destruct (StatIsNotExist storage sqliteFile (files w)).
    - destruct (Exec storage sqliteFile sqliteInitStmt fs1) as [fs2 [e|]];
        cbn [fst snd] in Hopen.
      { injection Hopen as <- <-. exists [CallExec sqliteFile sqliteInitStmt], [].
        cbn [calls]. by auto. }
      injection Hopen as <- <-.
      exists [CallExec sqliteFile sqliteInitStmt], [CallPrepare sqliteFile sqliteInsertStmt].
      cbn [calls]. by auto.
    - injection Hopen as <- <-.
      exists [], [CallPrepare sqliteFile sqliteInsertStmt]. cbn [calls]. by auto. }
  destruct Hcalls as (init & rest & Hcalls & Hinit & Hrest).
  destruct o as [e|].
  - rewrite run_phases, (loadTLDs_response l _ _ _ w HDo) in Hrun.
    rewrite (loadTLDs_response l _ _ _ w HDo) in Hopen. cbn [snd] in Hopen.
    rewrite Hopen in Hrun. injection Hrun as <- <-.
    exists init, rest. split; [done|]. split; [done|].
    destruct Hrest as [[-> _]| ->]; [left|right; left]; by split.
  - rewrite (run_after_openDB l _ w _ _ _ w2 HDo Hopen) in Hrun. cbv zeta in Hrun.
    injection Hrun as _ <-. cbn [calls].
    destruct Hrest as [[_ Hne]| ->]; [done|].
    exists init, (CallPrepare sqliteFile sqliteInsertStmt ::
                  map (CallStmtExec sqliteFile sqliteInsertStmt) (parsed lines) ++
                  [CallStmtClose sqliteFile]).
    split; [|by auto]. rewrite Hcalls, <- !app_assoc. done.
Qed.

Lemma filter_enabled l rs :
  Level l <= 0 ->
  Forall (fun r => 0 <= level r) rs ->
  List.filter (fun r => Enabled l (level r)) rs = rs.
Proof.
  intros Hl. induction 1 as [|r rs' Hr _ IH]; [done|].
  cbn [List.filter]. unfold Enabled at 1.
  rewrite (proj2 (Z.leb_le _ _)) by lia. by rewrite IH.
Qed.

Lemma error_levels rs :
  Forall (fun r => level r = LevelError) rs -> Forall (fun r => 0 <= level r) rs.
Proof.
  intros H. eapply Forall_impl; [exact H|].
  intros r ->. unfold LevelError. lia.
Qed.

(** With a logger at Info or below nothing the program logs is held back, and
    [run] does the same whatever the level. *)
Lemma run_any_level l l' sqliteFile w :
  Level l <= 0 -> Level l' <= 0 -> run l sqliteFile w = run l' sqliteFile w.
Proof.
  intros Hl Hl'.
  assert (Hload : loadTLDs requestTimeout l w = loadTLDs requestTimeout l' w).
  { destruct (Do requestTimeout tldURL) as [err|err|lines scanErr closeErr] eqn:HDo;
      [unfold loadTLDs; by rewrite HDo ..|].
    rewrite !(loadTLDs_response _ _ _ _ w HDo). unfold logAll.
    rewrite !filter_enabled;
      try done; apply error_levels, Forall_app;
      (split; [apply decodeLog_levels | apply closeLog_levels]). }
  rewrite !run_phases, Hload.
  destruct (loadTLDs requestTimeout l' w) as [[tlds [e|]] w1]; [done|].
  assert (Hopen : openDB l sqliteFile w1 = openDB l' sqliteFile w1).
  { rewrite !openDB_spec. cbv zeta.
    rewrite !filter_enabled; try done; repeat constructor; unfold LevelInfo; cbn; lia. }
  rewrite Hopen. destruct (openDB l' sqliteFile w1) as [[e|] w2]; [done|].
  rewrite !insertAndPrint_spec. cbv zeta.
  rewrite !filter_enabled;
    try done; apply error_levels, Forall_app;
    (split; [apply insertFailure_levels | apply closeLog_levels]).
Qed.

(** X9: the debug setting has no effect: the program logs at Info and Error
    only, so two processes that agree on the database file do the same, with
    or without [-debug] and whatever [DEBUG] holds. *)
Theorem main_ignores_debug p p' w :
  mainSqliteFile p = mainSqliteFile p' -> main p w = main p' w.
Proof.
  intros Hfile.
  assert (Hlevel : forall q, Level (mkLogger (mainLevel q)) <= 0).
  { intros q. unfold mainLevel, LevelDebug, LevelInfo. cbn [Level].
    destruct (mainDebug q); lia. }
  unfold main, bind. rewrite Hfile.
  rewrite (run_any_level _ (mkLogger (mainLevel p')) _ w (Hlevel p) (Hlevel p')).
  destruct (run (mkLogger (mainLevel p')) (mainSqliteFile p') w) as [[e|] w1]; [|done].
  unfold Error, emit. cbn [level].
  rewrite !mainLevel_enabled; [done|unfold LevelError; lia ..].
Qed.

(** *** The claims on the scanned stream, the log and the store *)

Lemma scan_short ls :
  Forall (fun line => (String.length line < Scanner.MaxScanTokenSize)%nat) ls ->
  Scanner.scan ls = (map Scanner.dropCR ls, None).
Proof.
  induction 1 as [|line more Hline _ IH]; [done|].
  cbn [Scanner.scan map].
  rewrite (proj2 (Nat.leb_gt _ _) Hline). by rewrite IH.
Qed.

(** C3, as the code has it: for a body that the scanner reads to its end,
    with no read error and every line within the scanner's buffer, the
    entries are the lines (their trailing carriage return dropped by the
    scanner) that, trimmed and lowercased, are neither empty nor start with
    [#], each replaced by what [ToUnicode] returns for it, in the order of
    the stream and with repetitions kept. *)
Theorem loadTLDs_entries l body closeErr w :
  Do requestTimeout tldURL =
    Response (fst (Scanner.tokens body)) (snd (Scanner.tokens body)) closeErr ->
  Forall (fun line => (String.length line < Scanner.MaxScanTokenSize)%nat)
    (Scanner.splitLines body) ->
  exists tlds w',
    loadTLDs requestTimeout l w = ((tlds, None), w') /\
    snd (Scanner.tokens body) = None /\
    elems tlds =
      map (fun line => fst (ToUnicode line))
        (List.filter (fun line => negb (String.eqb line "" || HasPrefix line "#"))
           (map (fun text => ToLower (TrimSpace text))
              (map Scanner.dropCR (Scanner.splitLines body)))).
Proof.
  intros HDo Hshort. unfold Scanner.tokens in *. rewrite (scan_short _ Hshort) in *.
  cbn [fst snd] in HDo. eexists _, _. split.
  - by apply loadTLDs_response with (1 := HDo).
  - split; [done|]. by rewrite elems_extend.
Qed.

Lemma filter_errors l rs :
  Enabled l LevelError = true ->
  Forall (fun r => level r = LevelError) rs ->
  List.filter (fun r => Enabled l (level r)) rs = rs.
Proof.
  intros Hl. induction 1 as [|r rs' Hr _ IH]; [done|].
  cbn [List.filter]. by rewrite Hr, Hl, IH.
Qed.

(** C2, as the code has it: the new entries are the entries whose insert
    returned no error, in their order; an entry whose insert returned an
    error is not among them for that attempt, and the log tells the two
    kinds of error apart: nothing is logged for an error with the text of
    [uniqueMsg], one line with the error and the entry for any other. *)
Theorem insertLoop_accepts_successful_inserts l db n tlds w :
  Enabled l LevelError = true ->
  let outs := attempts db tlds (files w) in
  let r := insertLoop l db (make n) tlds w in
  map fst outs = tlds /\
  fst r = Some (map fst (List.filter succeeded outs)) /\
  (forall t, In t (elems (fst r)) <-> In (t, None) outs) /\
  stderr (snd r) =
    stderr w ++
    flat_map
      (fun o =>
         match snd o with
         | Some e =>
             if String.eqb e uniqueMsg then []
             else [mkLogLine LevelError "failed to exec insert statement"
                     [("err", e); ("tld", fst o)]]
         | None => []
         end)
      outs.
Proof.
  intros Hl outs r. subst r. rewrite insertLoop_spec, extend_make.
  cbn [fst snd elems default stderr]. fold outs.
  split; [apply attempts_fst|]. split; [done|]. split.
  - intros t. unfold id, accepted. rewrite in_map_iff. split.
    + intros [[t' err] [<- Hin]]. apply List.filter_In in Hin as [Hin Hok].
      unfold succeeded in Hok. simpl in *. by destruct err.
    + intros Hin. exists (t, None). split; [done|]. by apply List.filter_In.
  - by rewrite (filter_errors l _ Hl (insertFailure_levels outs)).
Qed.

(** C4: when [run] returns no error, standard output has received one
    write: the JSON array, closed by a newline, of the entries whose insert
    in this run returned no error, in the order of the stream ([[]] without
    such entries).  The inserts are those the run has made, one for every
    entry on the database as the prepare left it, and the database after the
    run is the one they leave. *)
Theorem run_prints_new_entries l sqliteFile w w' :
  run l sqliteFile w = (None, w') ->
  exists lines scanErr closeErr w2,
    Do requestTimeout tldURL = Response lines scanErr closeErr /\
    openDB l sqliteFile (snd (loadTLDs requestTimeout l w)) = (None, w2) /\
    let outs := attempts sqliteFile (parsed lines) (files w2) in
    let new := map fst (List.filter succeeded outs) in
    (forall t, In t new <-> In (t, None) outs) /\
    sublist new (parsed lines) /\
    calls w' =
      calls w2 ++ map (CallStmtExec sqliteFile sqliteInsertStmt) (parsed lines) ++
      [CallStmtClose sqliteFile] /\
    files w' =
      fst (StmtClose storage sqliteFile (stored sqliteFile (parsed lines) (files w2))) /\
    stdout w' =
      stdout w ++ [("[" +:+ String.concat "," (map jsonString new) +:+ "]") +:+ newline] /\
    (new = [] -> stdout w' = stdout w ++ ["[]" +:+ newline]).
Proof.
  intros Hrun.
  destruct (Do requestTimeout tldURL) as [err|err|lines scanErr closeErr] eqn:HDo.
  - rewrite (proj1 (run_fetch_error l sqliteFile w err) HDo) in Hrun. discriminate.
  - rewrite (proj2 (run_fetch_error l sqliteFile w err) HDo) in Hrun. discriminate.
  - destruct (openDB l sqliteFile (snd (loadTLDs requestTimeout l w))) as [o w2] eqn:Hopen.
    destruct o as [e|].
    + rewrite run_phases, (loadTLDs_response l _ _ _ w HDo) in Hrun.
      rewrite (loadTLDs_response l _ _ _ w HDo) in Hopen. cbn [snd] in Hopen.
      rewrite Hopen in Hrun. discriminate.
    + pose proof (openDB_stdout l sqliteFile (snd (loadTLDs requestTimeout l w))) as Hout.
      rewrite Hopen in Hout. cbn [snd] in Hout.
      rewrite (proj1 (proj2 (loadTLDs_frame l w))) in Hout.
      rewrite (run_after_openDB l _ w _ _ _ w2 HDo Hopen) in Hrun. cbv zeta in Hrun.
      destruct (StdoutWrite _ _) as [e|]; [discriminate|].
      injection Hrun as <-. exists lines, scanErr, closeErr, w2.
      split; [done|]. split; [done|]. cbv zeta. cbn [files stdout calls].
      split.
      { intros t. rewrite in_map_iff. split.
        - intros [[t' err] [<- Hin]]. apply List.filter_In in Hin as [Hin Hok].
          unfold succeeded in Hok. simpl in *. by destruct err.
        - intros Hin. exists (t, None). split; [done|]. by apply List.filter_In. }
      split.
      { rewrite <- (attempts_fst sqliteFile (parsed lines) (files w2)) at 2.
        apply accepted_sublist. }
      split; [done|]. split; [done|]. rewrite Hout.
      split; [done|]. intros Hnew. unfold accepted. by rewrite Hnew.
Qed.

End Program.

(** *** Configuration *)

Lemma getenv_cases p key fallback :
  getenv p key fallback =
  match environ p key with
  | None => fallback
  | Some v => if String.eqb v "" then fallback else v
  end.
Proof. unfold getenv, Getenv. by destruct (environ p key). Qed.

Lemma mainDebug_true p :
  mainDebug p = true <-> flagDebug p = true \/ environ p "DEBUG" = Some "true".
Proof.
  unfold mainDebug. rewrite getenv_cases.
  destruct (environ p "DEBUG") as [v|] eqn:Hv.
  - destruct (String.eqb v "") eqn:Hempty.
    + apply String.eqb_eq in Hempty as ->. simpl. split; [by left|].
      by intros [?|?].
    + destruct (String.eqb v "true") eqn:Htrue.
      * apply String.eqb_eq in Htrue as ->. split; [by right|done].
      * apply String.eqb_neq in Htrue. split; [by left|].
        intros [?|?]; [done|congruence].
  - simpl. split; [by left|]. by intros [?|?].
Qed.

(** C8: [main] hands to [run] the file of [mainSqliteFile] and a logger whose
    level is [mainLevel]; that level is Debug, so that a record of level
    Debug would be let through, exactly when [-debug] is given or [DEBUG] is
    the string [true], and Info otherwise: [TRUE], [1] and an unset variable
    leave it at Info without the flag, and with the flag no value of the
    variable brings it back to Info. *)
Theorem mainLevel_debug p :
  (forall TrimSpace ToLower ToUnicode Quote jsonString Do
          (FS : Type) (storage : Storage FS) StdoutWrite,
     main TrimSpace ToLower ToUnicode Quote jsonString Do storage StdoutWrite p =
     mainWith (run TrimSpace ToLower ToUnicode Quote jsonString Do storage StdoutWrite) p) /\
  (forall (FS : Type) (pipeline : Logger -> string -> IO FS (option error)) w,
     mainWith pipeline p w =
     let l := mkLogger (mainLevel p) in
     let (err, w1) := pipeline l (mainSqliteFile p) w in
     match err with
     | Some e => Error l e [] w1
     | None => (tt, w1)
     end) /\
  (Enabled (mkLogger (mainLevel p)) LevelDebug = true <->
   flagDebug p = true \/ environ p "DEBUG" = Some "true") /\
  (mainLevel p = LevelDebug <-> flagDebug p = true \/ environ p "DEBUG" = Some "true") /\
  (mainLevel p <> LevelDebug -> mainLevel p = LevelInfo) /\
  mainLevel (mkProcess false (fun _ => Some "TRUE")) = LevelInfo /\
  mainLevel (mkProcess false (fun _ => Some "1")) = LevelInfo /\
  mainLevel (mkProcess false (fun _ => None)) = LevelInfo /\
  (forall v, mainLevel (withEnv "DEBUG" v (mkProcess true (environ p))) = LevelDebug).
Proof.
  split; [reflexivity|]. split.
  { intros FS pipeline w.
    unfold mainWith, bind, mainLevel, mainDebug, mainSqliteFile. cbv zeta.
    by destruct (pipeline _ _ w) as [[e|] w1]. }
  split; [|split; [|split; [|repeat split]]].
  - rewrite <- mainDebug_true. unfold Enabled, mainLevel. cbn [Level].
    by destruct (mainDebug p).
  - unfold mainLevel. rewrite <- mainDebug_true. by destruct (mainDebug p).
  - unfold mainLevel. by destruct (mainDebug p).
  - intros v. unfold mainLevel.
    rewrite (proj2 (mainDebug_true _)); [done|]. by left.
Qed.

(** C10: a variable set to the empty string gives what the unset variable
    gives, the fallback: [./db.sqlite] for [SQLITE_FILE], [false] for
    [DEBUG], and with it the same file and the same level. *)
Theorem getenv_empty_is_unset p :
  (forall key fallback,
     getenv (withEnv key (Some "") p) key fallback = fallback /\
     getenv (withEnv key None p) key fallback = fallback) /\
  mainSqliteFile (withEnv "SQLITE_FILE" (Some "") p) = "./db.sqlite" /\
  mainSqliteFile (withEnv "SQLITE_FILE" None p) = "./db.sqlite" /\
  getenv (withEnv "DEBUG" (Some "") p) "DEBUG" "false" = "false" /\
  getenv (withEnv "DEBUG" None p) "DEBUG" "false" = "false" /\
  mainLevel (withEnv "DEBUG" (Some "") p) = mainLevel (withEnv "DEBUG" None p).
Proof.
  assert (H : forall key fallback,
     getenv (withEnv key (Some "") p) key fallback = fallback /\
     getenv (withEnv key None p) key fallback = fallback).
  { intros key fallback. rewrite !getenv_cases. simpl.
    by rewrite String.eqb_refl. }
  split; [exact H|].
  split; [apply H|]. split; [apply H|]. split; [apply H|]. split; [apply H|].
  unfold mainLevel, mainDebug.
  by rewrite (proj1 (H "DEBUG" "false")), (proj2 (H "DEBUG" "false")).
Qed.

(** *** The model on concrete input *)

Lemma lower_shift c :
  Sample.upper c || Sample.capital c = true ->
  Sample.upper (Sample.shift c) = false /\
  Sample.capital (Sample.shift c) = false /\
  Sample.lead (Sample.shift c) = false.
Proof.
  destruct c as [[] [] [] [] [] [] [] []]; vm_compute; intros H;
    first [discriminate H | done].
Qed.

Lemma lower_idempotent s : forall p, Sample.lower p (Sample.lower p s) = Sample.lower p s.
Proof.
  induction s as [|c rest IH]; intros p; [done|].
  cbn [Sample.lower].
  destruct (Sample.upper c || p && Sample.capital c) eqn:Hc.
  - assert (Hs : Sample.upper c || Sample.capital c = true).
    { destruct (Sample.upper c); [done|]. simpl in *.
      by destruct p. }
    destruct (lower_shift c Hs) as (Hu & Hk & Hl).
    cbn [Sample.lower]. rewrite Hu, Hk, Hl, andb_false_r. simpl.
    by rewrite IH.
  - cbn [Sample.lower]. rewrite Hc. by rewrite IH.
Qed.

Lemma ToLower_idempotent s : Sample.ToLower (Sample.ToLower s) = Sample.ToLower s.
Proof. apply lower_idempotent. Qed.

(** The scenario of the specification as a body of four lines: a comment, a
    blank line, [COM] and the ACE form of a Cyrillic label. *)
Lemma loadTLDs_entries_scenario :
  exists tlds w',
    loadTLDs Sample.TrimSpace Sample.ToLower Sample.ToUnicode Sample.Quote
      (fun _ _ =>
         Response
           (fst (Scanner.tokens
                   ("# comment" +:+ newline +:+ newline +:+ "COM" +:+ newline +:+
                    "XN--P1AI" +:+ newline)))
           (snd (Scanner.tokens
                   ("# comment" +:+ newline +:+ newline +:+ "COM" +:+ newline +:+
                    "XN--P1AI" +:+ newline)))
           None)
      requestTimeout
      (mkLogger LevelInfo) (mkWorld (∅ : gmap string Sqlite.File) [] [] []) =
    ((tlds, None), w') /\
    elems tlds = ["com"; "рф"].
Proof.
  destruct (loadTLDs_entries Sample.TrimSpace Sample.ToLower Sample.ToUnicode Sample.Quote
              (fun _ _ =>
                 Response
                   (fst (Scanner.tokens
                           ("# comment" +:+ newline +:+ newline +:+ "COM" +:+ newline +:+
                            "XN--P1AI" +:+ newline)))
                   (snd (Scanner.tokens
                           ("# comment" +:+ newline +:+ newline +:+ "COM" +:+ newline +:+
                            "XN--P1AI" +:+ newline)))
                   None)
              (mkLogger LevelInfo)
              ("# comment" +:+ newline +:+ newline +:+ "COM" +:+ newline +:+
               "XN--P1AI" +:+ newline)
              None (mkWorld (∅ : gmap string Sqlite.File) [] [] []) eq_refl)
    as (tlds & w' & Hload & _ & Helems).
  - apply List.Forall_forall. intros line Hline. vm_compute in Hline.
    destruct Hline as [<-|[<-|[<-|[<-|[]]]]]; apply Nat.ltb_lt; vm_compute; reflexivity.
  - exists tlds, w'. split; [exact Hload|].
    rewrite Helems. vm_compute. reflexivity.
Defined.

(** C3 as stated fails: a first line of 70000 bytes does not fit the
    scanner's buffer.  The scan ends there, the error is never looked at, and
    [loadTLDs] returns no entry and no error, although [com] is the second
    line of the stream. *)
Lemma loadTLDs_drops_lines_after_long_line :
  let body :=
    String.string_of_list_ascii (List.repeat (Ascii.ascii_of_nat 97) (70 * 1000)) +:+
    newline +:+ "com" +:+ newline in
  Scanner.tokens body = ([], Some Scanner.ErrTooLong) /\
  loadTLDs Sample.TrimSpace Sample.ToLower Sample.ToUnicode Sample.Quote
    (fun _ _ => Response (fst (Scanner.tokens body)) (snd (Scanner.tokens body)) None)
    requestTimeout (mkLogger LevelInfo) (mkWorld (∅ : gmap string Sqlite.File) [] [] []) =
    ((None, None), mkWorld ∅ [] [] []) /\
  nth_error
    (map (fun line => fst (Sample.ToUnicode line))
       (List.filter (fun line => negb (String.eqb line "" || HasPrefix line "#"))
          (map (fun text => Sample.ToLower (Sample.TrimSpace text))
             (map Scanner.dropCR (Scanner.splitLines body)))))
    1 = Some "com".
Proof.
  cbv zeta. split; [vm_compute; reflexivity|].
  split; vm_compute; reflexivity.
Qed.

(** A label that is no punycode, between two plain ones: the line is kept
    and the failure logged. *)
Lemma loadTLDs_decode_failure_scenario :
  exists tlds w' logBefore logAfter,
    loadTLDs Sample.TrimSpace Sample.ToLower Sample.ToUnicode Sample.Quote
      (Sample.serve ["com"; " XN--0"; "org"]) requestTimeout
      (mkLogger LevelInfo) (mkWorld (∅ : gmap string Sqlite.File) [] [] []) =
    ((tlds, None), w') /\
    elems tlds = ["com"] ++ "xn--0" :: ["org"] /\
    stderr w' =
      [] ++ logBefore ++
      mkLogLine LevelError
        ("failed to puny decode " +:+ Sample.Quote "xn--0" +:+ ": " +:+
         "idna: invalid label " +:+ Sample.Quote "0") []
      :: logAfter /\
    ("xn--0" = "xn--0" -> In "xn--0" (elems tlds)).
Proof.
  exact (loadTLDs_decode_failure Sample.TrimSpace Sample.ToLower Sample.ToUnicode
           Sample.Quote (Sample.serve ["com"; " XN--0"; "org"]) (mkLogger LevelInfo)
           ["com"] " XN--0" ["org"] None None "xn--0"
           ("idna: invalid label " +:+ Sample.Quote "0")
           (mkWorld (∅ : gmap string Sqlite.File) [] [] [])
           eq_refl eq_refl eq_refl eq_refl).
Defined.

(** C1 as stated fails: of a line with two labels the first is decoded and
    the second is not, and the entry is the partly decoded string, not the
    line. *)
Lemma loadTLDs_decode_failure_not_original :
  snd (Sample.ToUnicode (Sample.ToLower (Sample.TrimSpace "xn--p1ai.xn--0"))) =
    Some ("idna: invalid label " +:+ Sample.Quote "0") /\
  fst (fst (loadTLDs Sample.TrimSpace Sample.ToLower Sample.ToUnicode Sample.Quote
              (Sample.serve ["xn--p1ai.xn--0"]) requestTimeout
              (mkLogger LevelInfo) (mkWorld (∅ : gmap string Sqlite.File) [] [] []))) =
    Some ["рф.xn--0"] /\
  "рф.xn--0" <> Sample.ToLower (Sample.TrimSpace "xn--p1ai.xn--0").
Proof.
  split; [vm_compute; reflexivity|].
  split; [vm_compute; reflexivity|].
  vm_compute. discriminate.
Qed.

(** Entries of plain lines are lowercase. *)
Lemma loadTLDs_lowercases_scenario :
  exists text,
    In text ["COM"; "Org"] /\
    Sample.ToLower (Sample.ToLower (Sample.TrimSpace text)) =
      Sample.ToLower (Sample.TrimSpace text) /\
    "org" = fst (Sample.ToUnicode (Sample.ToLower (Sample.TrimSpace text))) /\
    ("org" = Sample.ToLower (Sample.TrimSpace text) -> Sample.ToLower "org" = "org").
Proof.
  exact (loadTLDs_lowercases_before_decoding Sample.TrimSpace Sample.ToLower
           Sample.ToUnicode Sample.Quote (Sample.serve ["COM"; "Org"])
           (mkLogger LevelInfo) ["COM"; "Org"] None None
           (mkWorld (∅ : gmap string Sqlite.File) [] [] [])
           (Some ["com"; "org"]) (mkWorld (∅ : gmap string Sqlite.File) [] [] [])
           "org" ToLower_idempotent eq_refl eq_refl (or_intror (or_introl eq_refl))).
Defined.

(** C6 as stated fails: the ACE form of a capital letter is lowercase, what
    it decodes to is not, and it is this that becomes the entry. *)
Lemma loadTLDs_entry_not_lowercase :
  fst (fst (loadTLDs Sample.TrimSpace Sample.ToLower Sample.ToUnicode Sample.Quote
              (Sample.serve ["XN--WCA"]) requestTimeout
              (mkLogger LevelInfo) (mkWorld (∅ : gmap string Sqlite.File) [] [] []))) =
    Some ["Ü"] /\
  Sample.ToLower "Ü" = "ü" /\
  Sample.ToLower "Ü" <> "Ü".
Proof.
  split; [vm_compute; reflexivity|].
  split; [vm_compute; reflexivity|].
  vm_compute. discriminate.
Qed.

(** *** The sqlite model *)

Lemma sqlite_StmtExec_known file query t fs rows :
  fs !! file = Some (Sqlite.mkFile (Some rows) false) ->
  In t rows ->
  StmtExec Sqlite.storage file query t fs = (fs, Some uniqueMsg).
Proof.
  intros Hfs Hin. cbn [Sqlite.storage StmtExec]. unfold Sqlite.StmtExec.
  rewrite Hfs. cbn [Sqlite.table Sqlite.readonly].
  rewrite bool_decide_eq_true_2; [done|]. by apply list_elem_of_In.
Qed.

Lemma sqlite_StmtExec_new file query t fs rows :
  fs !! file = Some (Sqlite.mkFile (Some rows) false) ->
  ~ In t rows ->
  StmtExec Sqlite.storage file query t fs =
  (<[file := Sqlite.mkFile (Some (rows ++ [t])) false]> fs, None).
Proof.
  intros Hfs Hin. cbn [Sqlite.storage StmtExec]. unfold Sqlite.StmtExec.
  rewrite Hfs. cbn [Sqlite.table Sqlite.readonly].
  rewrite bool_decide_eq_false_2; [done|]. by rewrite list_elem_of_In.
Qed.



Lemma sqlite_openDB_ready l file (w : World (gmap string Sqlite.File)) rows :
  files w !! file = Some (Sqlite.mkFile (Some rows) false) ->
  openDB Sqlite.storage l file w =
  (None,
   mkWorld (files w) (stderr w) (stdout w)
     (calls w ++ [CallStat file; CallOpen file; CallPrepare file sqliteInsertStmt])).
Proof.
  intros Hfs.
  unfold openDB, osStatIsNotExist, sqlOpen, dbPrepare, bind, record, onFiles, ret.
  cbn [files stderr stdout calls Sqlite.storage StatIsNotExist Open Prepare].
  unfold Sqlite.StatIsNotExist, Sqlite.Open, Sqlite.Prepare.
  cbn [files stderr stdout calls].
  rewrite bool_decide_eq_false_2 by congruence.
  rewrite String.eqb_refl. cbn [files stderr stdout calls].
  rewrite Hfs. cbn [Sqlite.table files stderr stdout calls].
  by rewrite <- !app_assoc.
Qed.




Section Idempotence.

Variables TrimSpace ToLower : string -> string.
Variable ToUnicode : string -> string * option error.
Variables Quote jsonString : string -> string.
Variable Do : Z -> string -> HTTP.
Variable StdoutWrite : list string -> string -> option error.


End Idempotence.

(** *** The whole program on concrete input *)

#[local] Abbreviation sampleRun lines :=
  (run Sample.TrimSpace Sample.ToLower Sample.ToUnicode Sample.Quote Sample.jsonString
     (Sample.serve lines) Sqlite.storage Sample.StdoutWrite
     (mkLogger LevelInfo) "./db.sqlite").

#[local] Abbreviation emptyWorld := (mkWorld (∅ : gmap string Sqlite.File) [] [] []).

(** The scenario of the specification on an empty directory, and once more
    on what the first run left. *)
Example run_scenario :
  let first := sampleRun ["# comment"; ""; "COM"; "XN--P1AI"] emptyWorld in
  let second := sampleRun ["# comment"; ""; "COM"; "XN--P1AI"] (snd first) in
  fst first = None /\
  stdout (snd first) =
    [("[" +:+ Sample.Quote "com" +:+ "," +:+ Sample.Quote "рф" +:+ "]") +:+ newline] /\
  files (snd first) !! "./db.sqlite" = Some (Sqlite.mkFile (Some ["com"; "рф"]) false) /\
  fst second = None /\
  stdout (snd second) = stdout (snd first) ++ ["[]" +:+ newline] /\
  stderr (snd second) = stderr (snd first).
Proof. vm_compute. repeat split. Qed.


(** C2 as stated fails: on a read-only database the insert of [com] fails
    with an error that is no uniqueness violation ([com] is no row of the
    table), and [com] is not among the new entries. *)
Lemma run_drops_entry_on_other_error :
  let w := mkWorld {["./db.sqlite" := Sqlite.mkFile (Some []) true]} [] [] [] in
  attempts Sqlite.storage "./db.sqlite" ["com"] (files w) =
    [("com", Some Sqlite.readonlyMsg)] /\
  Sqlite.readonlyMsg <> uniqueMsg /\
  ~ In "com" ([] : list tld) /\
  fst (insertLoop Sqlite.storage (mkLogger LevelInfo) "./db.sqlite" (make 1) ["com"] w) =
    Some [] /\
  fst (sampleRun ["com"] w) = None /\
  stdout (snd (sampleRun ["com"] w)) = ["[]" +:+ newline] /\
  stderr (snd (sampleRun ["com"] w)) =
    [mkLogLine LevelError "failed to exec insert statement"
       [("err", Sqlite.readonlyMsg); ("tld", "com")]].
Proof.
  cbv zeta. split; [vm_compute; reflexivity|].
  split; [vm_compute; discriminate|].
  split; [intros []|].
  repeat split; vm_compute; reflexivity.
Qed.

(** The scenario of the specification once more: what is printed are the
    entries whose insert succeeded on the database as this run prepared it. *)
Lemma run_prints_new_entries_scenario :
  exists lines scanErr closeErr w2,
    Sample.serve ["# comment"; ""; "COM"; "XN--P1AI"] requestTimeout tldURL =
      Response lines scanErr closeErr /\
    openDB Sqlite.storage (mkLogger LevelInfo) "./db.sqlite"
      (snd (loadTLDs Sample.TrimSpace Sample.ToLower Sample.ToUnicode Sample.Quote
              (Sample.serve ["# comment"; ""; "COM"; "XN--P1AI"]) requestTimeout
              (mkLogger LevelInfo) emptyWorld)) = (None, w2) /\
    stdout (snd (sampleRun ["# comment"; ""; "COM"; "XN--P1AI"] emptyWorld)) =
      stdout emptyWorld ++
      [("[" +:+
        String.concat ","
          (map Sample.jsonString
             (map fst
                (List.filter succeeded
                   (attempts Sqlite.storage "./db.sqlite"
                      (parsed Sample.TrimSpace Sample.ToLower Sample.ToUnicode lines)
                      (files w2))))) +:+
        "]") +:+ newline].
Proof.
  destruct (run_prints_new_entries Sample.TrimSpace Sample.ToLower Sample.ToUnicode
              Sample.Quote Sample.jsonString
              (Sample.serve ["# comment"; ""; "COM"; "XN--P1AI"]) Sqlite.storage
              Sample.StdoutWrite (mkLogger LevelInfo) "./db.sqlite" emptyWorld
              (snd (sampleRun ["# comment"; ""; "COM"; "XN--P1AI"] emptyWorld)))
    as (lines & scanErr & closeErr & w2 & HDo & Hopen & Hrest).
  - vm_compute. reflexivity.
  - cbv zeta in Hrest. destruct Hrest as (_ & _ & _ & _ & Hout & _).
    exists lines, scanErr, closeErr, w2. split; [exact HDo|]. split; [exact Hopen|].
    exact Hout.
Defined.



(** Three entries on a storage that knows [com] and is locked for [org]:
    [net] is new, and the log has one line, for [org]. *)
Lemma insertLoop_accepts_scenario :
  let storage :=
    mkStorage unit (fun _ _ => false) (fun _ fs => (fs, None)) (fun _ _ fs => (fs, None))
      (fun _ _ fs => (fs, None))
      (fun _ _ t fs =>
         (fs, if String.eqb t "com" then Some uniqueMsg
              else if String.eqb t "org" then Some "database is locked (5)"
              else None))
      (fun _ fs => (fs, None)) in
  let r := insertLoop storage (mkLogger LevelInfo) "./db.sqlite" (make 3)
             ["com"; "org"; "net"] (mkWorld tt [] [] []) in
  fst r = Some ["net"] /\
  stderr (snd r) =
    [mkLogLine LevelError "failed to exec insert statement"
       [("err", "database is locked (5)"); ("tld", "org")]].
Proof.
  cbv zeta.
  pose proof (insertLoop_accepts_successful_inserts
                (mkStorage unit (fun _ _ => false) (fun _ fs => (fs, None))
                   (fun _ _ fs => (fs, None)) (fun _ _ fs => (fs, None))
                   (fun _ _ t fs =>
                      (fs, if String.eqb t "com" then Some uniqueMsg
                           else if String.eqb t "org" then Some "database is locked (5)"
                           else None))
                   (fun _ fs => (fs, None)))
                (mkLogger LevelInfo) "./db.sqlite" 3 ["com"; "org"; "net"]
                (mkWorld tt [] [] []) eq_refl) as H.
  cbv zeta in H. destruct H as (_ & Hnew & _ & Hlog).
  split; [rewrite Hnew | rewrite Hlog]; vm_compute; reflexivity.
Defined.

(** C7 at the failing input: the deadline passes while the body is read,
    after the line [com].  The scanner stops, its error is never looked at,
    and [run] goes on as after a complete list: the database is created, the
    entry stored and the array printed. *)
Theorem run_after_interrupted_body :
  let interrupted : Z -> string -> HTTP :=
    fun _ _ => Response ["com"] (Some "context deadline exceeded") None in
  let r := run Sample.TrimSpace Sample.ToLower Sample.ToUnicode Sample.Quote
             Sample.jsonString interrupted Sqlite.storage Sample.StdoutWrite
             (mkLogger LevelInfo) "./db.sqlite" emptyWorld in
  fst r = None /\
  files (snd r) !! "./db.sqlite" = Some (Sqlite.mkFile (Some ["com"]) false) /\
  stdout (snd r) = [("[" +:+ Sample.Quote "com" +:+ "]") +:+ newline] /\
  calls (snd r) =
    [CallStat "./db.sqlite"; CallOpen "./db.sqlite";
     CallExec "./db.sqlite" sqliteInitStmt;
     CallPrepare "./db.sqlite" sqliteInsertStmt;
     CallStmtExec "./db.sqlite" sqliteInsertStmt "com";
     CallStmtClose "./db.sqlite"].
Proof. vm_compute. repeat split. Qed.

(** *** Further properties: the configuration *)

(** X11: [getenv] hands back the value of a variable that is set and not
    empty, as it is; with a fallback that is not empty it never returns the
    empty string, so the file [main] passes to [run] always has a name, and
    it is the value of [SQLITE_FILE] whenever that is set and not empty. *)
Theorem getenv_value p key fallback :
  (forall v, environ p key = Some v -> v <> "" -> getenv p key fallback = v) /\
  (fallback <> "" -> getenv p key fallback <> "") /\
  (forall v, environ p "SQLITE_FILE" = Some v -> v <> "" -> mainSqliteFile p = v) /\
  mainSqliteFile p <> "".
Proof.
  assert (Hset : forall k fb v,
    environ p k = Some v -> v <> "" -> getenv p k fb = v).
  { intros k fb v Hv Hne. rewrite getenv_cases, Hv.
    by rewrite (proj2 (String.eqb_neq v "") Hne). }
  assert (Hfb : forall k fb, fb <> "" -> getenv p k fb <> "").
  { intros k fb Hne. rewrite getenv_cases.
    destruct (environ p k) as [v|]; [|done].
    destruct (String.eqb v "") eqn:Hv; [done|]. by apply String.eqb_neq. }
  split; [apply Hset|]. split; [apply Hfb|]. split; [apply Hset|].
  apply Hfb. discriminate.
Qed.

(** *** Further properties: the sqlite model *)

Lemma sqlite_attempts_fresh file tlds : forall fs rows,
  fs !! file = Some (Sqlite.mkFile (Some rows) false) ->
  exists new,
    accepted (attempts Sqlite.storage file tlds fs) = new /\
    flat_map insertFailure (attempts Sqlite.storage file tlds fs) = [] /\
    stored Sqlite.storage file tlds fs =
      <[file := Sqlite.mkFile (Some (rows ++ new)) false]> fs /\
    List.NoDup new /\
    (forall t, In t new <-> In t tlds /\ ~ In t rows) /\
    sublist new tlds.
Proof.
  induction tlds as [|t rest IH]; intros fs rows Hfs.
  - exists []. cbn [attempts stored flat_map]. rewrite app_nil_r.
    split; [done|]. split; [done|]. split; [by rewrite insert_id|].
    split; [constructor|]. split; [|constructor].
    intros t. split; [intros []|by intros [[] _]].
  - cbn [attempts stored]. destruct (in_dec String.string_dec t rows) as [Hin|Hin].
    + rewrite (sqlite_StmtExec_known _ _ _ _ _ Hfs Hin). cbn [fst].
      destruct (IH fs rows Hfs) as (new & Hacc & Hlog & Hst & Hnd & Hmem & Hsub).
      exists new. unfold accepted in *. cbn [List.filter succeeded snd flat_map].
      split; [done|]. split.
      { unfold insertFailure at 1. cbn [snd]. by rewrite String.eqb_refl. }
      split; [done|]. split; [done|]. split; [|by constructor].
      intros u. rewrite Hmem. cbn [In]. split; [by intros [? ?]; auto|].
      intros [[<-|Hu] Hnot]; [done|by split].
    + rewrite (sqlite_StmtExec_new _ _ _ _ _ Hfs Hin). cbn [fst].
      destruct (IH (<[file := Sqlite.mkFile (Some (rows ++ [t])) false]> fs) (rows ++ [t]))
        as (new & Hacc & Hlog & Hst & Hnd & Hmem & Hsub); [by rewrite lookup_insert_eq|].
      exists (t :: new). unfold accepted in *.
      cbn [List.filter succeeded snd flat_map map fst].
      split; [by rewrite Hacc|]. split; [done|]. split.
      { rewrite Hst, insert_insert_eq, <- app_assoc. done. }
      split.
      { constructor; [|done]. rewrite Hmem, in_app_iff. cbn [In]. intros [_ Hnot].
        apply Hnot. right. by left. }
      split; [|by constructor].
      intros u. cbn [In]. rewrite Hmem, in_app_iff. cbn [In]. split.
      * intros [<-|[Hu Hnot]]; [by auto|]. split; [by right|]. by auto.
      * intros [[<-|Hu] Hnot]; [by left|].
        destruct (String.string_dec t u) as [<-|Hne]; [by left|].
        right. split; [done|]. intros [?|[?|[]]]; done.
Qed.

Section Diff.

Variables TrimSpace ToLower : string -> string.
Variable ToUnicode : string -> string * option error.
Variables Quote jsonString : string -> string.
Variable Do : Z -> string -> HTTP.
Variable StdoutWrite : list string -> string -> option error.

(** X10: on a database that holds the table and takes writes, a run that
    returns no error prints exactly the entries of the list that were no
    rows before, each once and in the order of the stream; these are
    appended to the table, which keeps its rows and stays free of
    duplicates; and the insert loop logs nothing. *)
Theorem run_prints_unseen_entries l file (w w' : World (gmap string Sqlite.File))
    lines scanErr closeErr rows :
  Do requestTimeout tldURL = Response lines scanErr closeErr ->
  files w !! file = Some (Sqlite.mkFile (Some rows) false) ->
  run TrimSpace ToLower ToUnicode Quote jsonString Do Sqlite.storage StdoutWrite l file w =
    (None, w') ->
  exists new,
    stdout w' =
      stdout w ++ [("[" +:+ String.concat "," (map jsonString new) +:+ "]") +:+ newline] /\
    files w' = <[file := Sqlite.mkFile (Some (rows ++ new)) false]> (files w) /\
    List.NoDup new /\
    (forall t, In t new <->
               In t (parsed TrimSpace ToLower ToUnicode lines) /\ ~ In t rows) /\
    sublist new (parsed TrimSpace ToLower ToUnicode lines) /\
    (List.NoDup rows -> List.NoDup (rows ++ new)) /\
    stderr w' =
      stderr (snd (loadTLDs TrimSpace ToLower ToUnicode Quote Do requestTimeout l w)).
Proof.
  intros HDo Hfs Hrun.
  destruct (loadTLDs_frame TrimSpace ToLower ToUnicode Quote Do l w) as (Hfiles & Hout & _).
  set (w1 := snd (loadTLDs TrimSpace ToLower ToUnicode Quote Do requestTimeout l w)) in *.
  assert (Hfs1 : files w1 !! file = Some (Sqlite.mkFile (Some rows) false))
    by (by rewrite Hfiles).
  pose proof (sqlite_openDB_ready l file w1 rows Hfs1) as Hopen.
  rewrite (run_after_openDB _ _ _ _ _ _ _ _ l file w _ _ _ _ HDo Hopen) in Hrun.
  cbv zeta in Hrun. cbn [files stderr stdout calls] in Hrun.
  destruct (sqlite_attempts_fresh file (parsed TrimSpace ToLower ToUnicode lines) _ _ Hfs1)
    as (new & Hacc & Hlog & Hst & Hnd & Hmem & Hsub).
  rewrite Hacc, Hlog, Hst in Hrun.
  cbn [Sqlite.storage StmtClose Sqlite.StmtClose fst snd closeLog app List.filter] in Hrun.
  destruct (StdoutWrite _ _) as [e|]; [discriminate|].
  injection Hrun as <-. cbn [files stderr stdout calls].
  exists new. rewrite app_nil_r, Hfiles, Hout.
  repeat (split; [done|]). split; [|done].
  intros Hrows. apply List.NoDup_app; [done|done|].
  intros t Ht Hnew. by apply Hmem in Hnew as [_ Hnot].
Qed.

End Diff.

Lemma sqlite_openDB_first l file (w : World (gmap string Sqlite.File)) :
  files w !! file = None ->
  openDB Sqlite.storage l file w =
  (None,
   mkWorld (<[file := Sqlite.mkFile (Some []) false]> (files w))
     (stderr w ++
      List.filter (fun r => Enabled l (level r))
        [mkLogLine LevelInfo "successfully initialized database" []])
     (stdout w)
     (calls w ++ [CallStat file; CallOpen file; CallExec file sqliteInitStmt;
                  CallPrepare file sqliteInsertStmt])).
Proof.
  intros Hfs. rewrite openDB_spec.
  cbn [Sqlite.storage StatIsNotExist Open Exec Prepare].
  unfold Sqlite.StatIsNotExist, Sqlite.Open, Sqlite.Exec, Sqlite.Prepare.
  cbv zeta. cbn [fst snd]. rewrite bool_decide_eq_true_2 by done.
  rewrite !String.eqb_refl, Hfs. cbn [fst snd].
  rewrite lookup_insert_eq. cbn [Sqlite.table fst snd]. done.
Qed.

Section FirstRun.

Variables TrimSpace ToLower : string -> string.
Variable ToUnicode : string -> string * option error.
Variables Quote jsonString : string -> string.
Variable Do : Z -> string -> HTTP.
Variable StdoutWrite : list string -> string -> option error.

(** X12: when the database file does not exist, a run that returns no error
    creates it with the table, logs at level Info that the database was
    initialized, and prints every entry of the list, each once and in the
    order of the stream; the table holds exactly what was printed. *)
Theorem run_first_run l file (w w' : World (gmap string Sqlite.File))
    lines scanErr closeErr :
  Do requestTimeout tldURL = Response lines scanErr closeErr ->
  files w !! file = None ->
  run TrimSpace ToLower ToUnicode Quote jsonString Do Sqlite.storage StdoutWrite l file w =
    (None, w') ->
  exists new,
    stdout w' =
      stdout w ++ [("[" +:+ String.concat "," (map jsonString new) +:+ "]") +:+ newline] /\
    files w' = <[file := Sqlite.mkFile (Some new) false]> (files w) /\
    List.NoDup new /\
    (forall t, In t new <-> In t (parsed TrimSpace ToLower ToUnicode lines)) /\
    sublist new (parsed TrimSpace ToLower ToUnicode lines) /\
    stderr w' =
      stderr (snd (loadTLDs TrimSpace ToLower ToUnicode Quote Do requestTimeout l w)) ++
      List.filter (fun r => Enabled l (level r))
        [mkLogLine LevelInfo "successfully initialized database" []].
Proof.
  intros HDo Hfs Hrun.
  destruct (loadTLDs_frame TrimSpace ToLower ToUnicode Quote Do l w) as (Hfiles & Hout & _).
  set (w1 := snd (loadTLDs TrimSpace ToLower ToUnicode Quote Do requestTimeout l w)) in *.
  assert (Hfs1 : files w1 !! file = None) by (by rewrite Hfiles).
  pose proof (sqlite_openDB_first l file w1 Hfs1) as Hopen.
  rewrite (run_after_openDB _ _ _ _ _ _ _ _ l file w _ _ _ _ HDo Hopen) in Hrun.
  cbv zeta in Hrun. cbn [files stderr stdout calls] in Hrun.
  destruct (sqlite_attempts_fresh file (parsed TrimSpace ToLower ToUnicode lines)
              (<[file := Sqlite.mkFile (Some []) false]> (files w1)) [])
    as (new & Hacc & Hlog & Hst & Hnd & Hmem & Hsub); [by rewrite lookup_insert_eq|].
  rewrite Hacc, Hlog, Hst in Hrun.
  cbn [Sqlite.storage StmtClose Sqlite.StmtClose fst snd closeLog app] in Hrun.
  destruct (StdoutWrite _ _) as [e|]; [discriminate|].
  injection Hrun as <-. cbn [files stderr stdout calls List.filter].
  exists new. rewrite app_nil_r, insert_insert_eq, Hfiles, Hout.
  repeat (split; [done|]). split; [|done].
  intros t. rewrite Hmem. split; [by intros [? _]|]. intros Ht. split; [done|]. intros [].
Qed.

End FirstRun.

(** *** Further properties on concrete input *)

#[local] Abbreviation sampleRunWith net storage write :=
  (run Sample.TrimSpace Sample.ToLower Sample.ToUnicode Sample.Quote Sample.jsonString
     net storage write (mkLogger LevelInfo) "./db.sqlite").

#[local] Abbreviation sampleLoad net :=
  (loadTLDs Sample.TrimSpace Sample.ToLower Sample.ToUnicode Sample.Quote net
     (FS := gmap string Sqlite.File) requestTimeout (mkLogger LevelInfo)).

(** The name of the server cannot be resolved. *)
Lemma run_aborts_on_fetch_error_scenario :
  sampleRunWith (fun _ _ => DoFails "no such host") Sqlite.storage Sample.StdoutWrite
    emptyWorld = (Some ("failed to get: " +:+ "no such host"), emptyWorld) /\
  main Sample.TrimSpace Sample.ToLower Sample.ToUnicode Sample.Quote Sample.jsonString
    (fun _ _ => DoFails "no such host") Sqlite.storage Sample.StdoutWrite
    (mkProcess false (fun _ => None)) emptyWorld =
  (tt, mkWorld (files emptyWorld)
         (stderr emptyWorld ++
          [mkLogLine LevelError ("failed to get: " +:+ "no such host") []])
         (stdout emptyWorld) (calls emptyWorld)).
Proof.
  exact (proj2 (run_aborts_on_fetch_error Sample.TrimSpace Sample.ToLower Sample.ToUnicode
                  Sample.Quote Sample.jsonString (fun _ _ => DoFails "no such host")
                  Sqlite.storage Sample.StdoutWrite (mkLogger LevelInfo) "./db.sqlite"
                  (mkProcess false (fun _ => None)) emptyWorld "no such host") eq_refl).
Defined.

(** A driver that is not registered. *)
Lemma run_open_error_scenario :
  sampleRunWith (Sample.serve ["com"])
    (mkStorage (gmap string Sqlite.File) Sqlite.StatIsNotExist
       (fun _ fs => (fs, Some "sql: unknown driver")) Sqlite.Exec Sqlite.Prepare
       Sqlite.StmtExec Sqlite.StmtClose)
    Sample.StdoutWrite emptyWorld =
  (Some ("failed to open sqlite database: " +:+ "sql: unknown driver"),
   mkWorld ∅ (stderr (snd (sampleLoad (Sample.serve ["com"]) emptyWorld))) (stdout emptyWorld)
     (calls emptyWorld ++ [CallStat "./db.sqlite"; CallOpen "./db.sqlite"])).
Proof.
  exact (run_open_error Sample.TrimSpace Sample.ToLower Sample.ToUnicode Sample.Quote
           Sample.jsonString (Sample.serve ["com"])
           (mkStorage (gmap string Sqlite.File) Sqlite.StatIsNotExist
              (fun _ fs => (fs, Some "sql: unknown driver")) Sqlite.Exec Sqlite.Prepare
              Sqlite.StmtExec Sqlite.StmtClose)
           Sample.StdoutWrite
           (mkLogger LevelInfo) "./db.sqlite" emptyWorld ["com"] None None ∅
           "sql: unknown driver" eq_refl eq_refl).
Defined.

(** A directory that cannot be written to. *)
Lemma run_init_error_scenario :
  sampleRunWith (Sample.serve ["com"])
    (mkStorage (gmap string Sqlite.File) Sqlite.StatIsNotExist Sqlite.Open
       (fun _ _ fs => (fs, Some "unable to open database file (14)")) Sqlite.Prepare
       Sqlite.StmtExec Sqlite.StmtClose)
    Sample.StdoutWrite emptyWorld =
  (Some ("failed to init database: " +:+ "unable to open database file (14)"),
   mkWorld ∅ (stderr (snd (sampleLoad (Sample.serve ["com"]) emptyWorld))) (stdout emptyWorld)
     (calls emptyWorld ++ [CallStat "./db.sqlite"; CallOpen "./db.sqlite";
                           CallExec "./db.sqlite" sqliteInitStmt])).
Proof.
  refine (run_init_error Sample.TrimSpace Sample.ToLower Sample.ToUnicode Sample.Quote
            Sample.jsonString (Sample.serve ["com"])
            (mkStorage (gmap string Sqlite.File) Sqlite.StatIsNotExist Sqlite.Open
               (fun _ _ fs => (fs, Some "unable to open database file (14)"))
               Sqlite.Prepare Sqlite.StmtExec Sqlite.StmtClose)
            Sample.StdoutWrite
            (mkLogger LevelInfo) "./db.sqlite" emptyWorld ["com"] None None ∅ ∅
            "unable to open database file (14)" eq_refl _ eq_refl eq_refl).
  vm_compute. reflexivity.
Defined.

(** A file without the table. *)
Lemma run_prepare_error_scenario :
  sampleRunWith (Sample.serve ["com"]) Sqlite.storage Sample.StdoutWrite
    (mkWorld {["./db.sqlite" := Sqlite.mkFile None false]} [] [] []) =
  (Some ("failed to prepare insert statement: " +:+ Sqlite.noTableMsg),
   mkWorld {["./db.sqlite" := Sqlite.mkFile None false]}
     (stderr (snd (sampleLoad (Sample.serve ["com"])
                     (mkWorld {["./db.sqlite" := Sqlite.mkFile None false]} [] [] []))))
     []
     ([] ++ [CallStat "./db.sqlite"; CallOpen "./db.sqlite";
             CallPrepare "./db.sqlite" sqliteInsertStmt])).
Proof.
  refine (run_prepare_error Sample.TrimSpace Sample.ToLower Sample.ToUnicode Sample.Quote
            Sample.jsonString (Sample.serve ["com"]) Sqlite.storage Sample.StdoutWrite
            (mkLogger LevelInfo) "./db.sqlite"
            (mkWorld {["./db.sqlite" := Sqlite.mkFile None false]} [] [] [])
            ["com"] None None {["./db.sqlite" := Sqlite.mkFile None false]}
            {["./db.sqlite" := Sqlite.mkFile None false]}
            Sqlite.noTableMsg eq_refl _ eq_refl _);
    vm_compute; reflexivity.
Defined.

(** Standard output is a closed pipe: [com] is stored all the same. *)
Lemma run_print_error_scenario :
  exists w',
    sampleRunWith (Sample.serve ["com"]) Sqlite.storage (fun _ _ => Some "broken pipe")
      emptyWorld =
    (Some ("failed to JSON-print to stdout: " +:+ "broken pipe"), w') /\
    stdout w' = [] /\
    files w' !! "./db.sqlite" = Some (Sqlite.mkFile (Some ["com"]) false).
Proof.
  destruct (run_print_error Sample.TrimSpace Sample.ToLower Sample.ToUnicode Sample.Quote
              Sample.jsonString (Sample.serve ["com"]) Sqlite.storage
              (fun _ _ => Some "broken pipe") (mkLogger LevelInfo) "./db.sqlite"
              emptyWorld ["com"] None None
              (snd (openDB Sqlite.storage (mkLogger LevelInfo) "./db.sqlite" emptyWorld))
              "broken pipe" eq_refl)
    as (w' & Hrun & Hout & Hfiles & _).
  - vm_compute. reflexivity.
  - reflexivity.
  - exists w'. split; [exact Hrun|]. split; [exact Hout|].
    rewrite Hfiles. vm_compute. reflexivity.
Defined.

(** The statement cannot be closed: the run succeeds all the same. *)
Lemma run_close_error_scenario :
  exists w' logged,
    sampleRunWith (Sample.serve ["com"])
      (mkStorage (gmap string Sqlite.File) Sqlite.StatIsNotExist Sqlite.Open Sqlite.Exec
         Sqlite.Prepare Sqlite.StmtExec (fun _ fs => (fs, Some "sql: statement is closed")))
      Sample.StdoutWrite emptyWorld = (None, w') /\
    stderr w' =
      logged ++
      [mkLogLine LevelError
         ("failed to close insert statement: " +:+ "sql: statement is closed") []].
Proof.
  destruct (run_close_error Sample.TrimSpace Sample.ToLower Sample.ToUnicode Sample.Quote
              Sample.jsonString (Sample.serve ["com"])
              (mkStorage (gmap string Sqlite.File) Sqlite.StatIsNotExist Sqlite.Open
                 Sqlite.Exec Sqlite.Prepare Sqlite.StmtExec
                 (fun _ fs => (fs, Some "sql: statement is closed")))
              Sample.StdoutWrite (mkLogger LevelInfo) "./db.sqlite"
              emptyWorld ["com"] None None
              (snd (openDB Sqlite.storage (mkLogger LevelInfo) "./db.sqlite" emptyWorld))
              {["./db.sqlite" := Sqlite.mkFile (Some ["com"]) false]}
              "sql: statement is closed" eq_refl eq_refl)
    as (w' & logged & Hrun & _ & Hlog).
  - vm_compute. reflexivity.
  - vm_compute. reflexivity.
  - exists w', logged. split; [exact Hrun|exact Hlog].
Defined.

(** The calls of the scenario of the specification, on an empty directory. *)
Lemma run_storage_protocol_scenario :
  exists init rest,
    calls (snd (sampleRun ["# comment"; ""; "COM"; "XN--P1AI"] emptyWorld)) =
      calls emptyWorld ++ [CallStat "./db.sqlite"; CallOpen "./db.sqlite"] ++ init ++ rest /\
    (init = [] \/
     init = [CallExec "./db.sqlite" sqliteInitStmt] /\
     StatIsNotExist Sqlite.storage "./db.sqlite" (files emptyWorld) = true) /\
    (rest = [] /\ fst (sampleRun ["# comment"; ""; "COM"; "XN--P1AI"] emptyWorld) <> None \/
     rest = [CallPrepare "./db.sqlite" sqliteInsertStmt] /\
     fst (sampleRun ["# comment"; ""; "COM"; "XN--P1AI"] emptyWorld) <> None \/
     rest = CallPrepare "./db.sqlite" sqliteInsertStmt ::
            map (CallStmtExec "./db.sqlite" sqliteInsertStmt)
              (parsed Sample.TrimSpace Sample.ToLower Sample.ToUnicode
                 ["# comment"; ""; "COM"; "XN--P1AI"]) ++
            [CallStmtClose "./db.sqlite"]).
Proof.
  apply (run_storage_protocol Sample.TrimSpace Sample.ToLower Sample.ToUnicode
           Sample.Quote Sample.jsonString
           (Sample.serve ["# comment"; ""; "COM"; "XN--P1AI"]) Sqlite.storage
           Sample.StdoutWrite (mkLogger LevelInfo) "./db.sqlite" emptyWorld
           ["# comment"; ""; "COM"; "XN--P1AI"] None None).
  - reflexivity.
  - apply surjective_pairing.
Defined.

(** With the flag and without it, on a list with a label that does not
    decode. *)
Lemma main_ignores_debug_scenario :
  main Sample.TrimSpace Sample.ToLower Sample.ToUnicode Sample.Quote Sample.jsonString
    (Sample.serve ["COM"; "xn--0"]) Sqlite.storage Sample.StdoutWrite
    (mkProcess true (fun _ => None)) emptyWorld =
  main Sample.TrimSpace Sample.ToLower Sample.ToUnicode Sample.Quote Sample.jsonString
    (Sample.serve ["COM"; "xn--0"]) Sqlite.storage Sample.StdoutWrite
    (mkProcess false (fun _ => None)) emptyWorld.
Proof. apply main_ignores_debug. reflexivity. Defined.

(** [com] is known, [org] comes twice. *)
Lemma run_prints_unseen_entries_scenario :
  exists new,
    stdout (snd (sampleRun ["COM"; "org"; "Org"]
                   (mkWorld {["./db.sqlite" := Sqlite.mkFile (Some ["com"]) false]} [] [] []))) =
      [] ++ [("[" +:+ String.concat "," (map Sample.jsonString new) +:+ "]") +:+ newline] /\
    new = ["org"].
Proof.
  destruct (run_prints_unseen_entries Sample.TrimSpace Sample.ToLower Sample.ToUnicode
              Sample.Quote Sample.jsonString (Sample.serve ["COM"; "org"; "Org"])
              Sample.StdoutWrite (mkLogger LevelInfo) "./db.sqlite"
              (mkWorld {["./db.sqlite" := Sqlite.mkFile (Some ["com"]) false]} [] [] [])
              (snd (sampleRun ["COM"; "org"; "Org"]
                      (mkWorld {["./db.sqlite" := Sqlite.mkFile (Some ["com"]) false]}
                         [] [] [])))
              ["COM"; "org"; "Org"] None None ["com"] eq_refl)
    as (new & Hout & Hfiles & _).
  - vm_compute. reflexivity.
  - vm_compute. reflexivity.
  - exists new. split; [exact Hout|].
    pose proof (f_equal (fun m : gmap string Sqlite.File => m !! "./db.sqlite") Hfiles)
      as Hrow.
    cbn beta in Hrow. rewrite lookup_insert_eq in Hrow. vm_compute in Hrow.
    injection Hrow as Hnew. by rewrite <- Hnew.
Defined.

(** The first run of the scenario of the specification. *)
Lemma run_first_run_scenario :
  exists new,
    stdout (snd (sampleRun ["# comment"; ""; "COM"; "XN--P1AI"] emptyWorld)) =
      stdout emptyWorld ++
      [("[" +:+ String.concat "," (map Sample.jsonString new) +:+ "]") +:+ newline] /\
    files (snd (sampleRun ["# comment"; ""; "COM"; "XN--P1AI"] emptyWorld)) =
      <["./db.sqlite" := Sqlite.mkFile (Some new) false]> (files emptyWorld).
Proof.
  destruct (run_first_run Sample.TrimSpace Sample.ToLower Sample.ToUnicode
              Sample.Quote Sample.jsonString
              (Sample.serve ["# comment"; ""; "COM"; "XN--P1AI"])
              Sample.StdoutWrite (mkLogger LevelInfo) "./db.sqlite" emptyWorld
              (snd (sampleRun ["# comment"; ""; "COM"; "XN--P1AI"] emptyWorld))
              ["# comment"; ""; "COM"; "XN--P1AI"] None None eq_refl)
    as (new & Hout & Hfiles & _).
  - vm_compute. reflexivity.
  - vm_compute. reflexivity.
  - exists new. split; [exact Hout|exact Hfiles].
Defined.
